(** * Employee salary predictor: the serving script [app.py]

    A shallow embedding of the Streamlit script: the module-level
    currency table, the formatting of the currency lines and the
    control flow of one run of the script (model loading, widgets,
    the "Predict Salary" handler), followed by the properties that the
    specification states about them.

    Python floats are IEEE-754 binary64 values: they are modelled by
    [spec_float] with the operations of [SpecFloat] at precision 53 and
    [emax = 1024].  Python [str] values are modelled by [string], a
    non-ASCII character being the sequence of its UTF-8 bytes. *)

From Stdlib Require Import ZArith NArith List Bool Lia.
From Stdlib Require Import Strings.Ascii Strings.String Numbers.DecimalString.
From Stdlib Require Import Floats.SpecFloat.
From Stdlib Require Import Sorted Permutation.
Import ListNotations.

Open Scope string_scope.

(** ** Python values *)

Module Py.

(** *** binary64 floats *)

Definition prec : Z := 53.
Definition emax : Z := 1024.

Definition float := spec_float.

Definition fmul (x y : float) : float := SFmul prec emax x y.

(** The float denoted by a decimal literal whose value is [num / den],
    both below [2^53]: the operands are exact and the division rounds to
    nearest-even, which is the value Python's parser gives the literal. *)
Definition float_of_ratio (num : Z) (den : positive) : float :=
  SFdiv prec emax (binary_normalize prec emax num 0 false)
                  (binary_normalize prec emax (Zpos den) 0 false).

Definition float_of_Z (n : Z) : float := float_of_ratio n 1.

(** *** [str] of an [int] *)

Definition str_of_int (z : Z) : string :=
  NilEmpty.string_of_int (Z.to_int z).

Definition str_of_N (n : N) : string :=
  NilEmpty.string_of_uint (N.to_uint n).

(** *** the format specification [,.2f] *)

(** Nearest integer to [num / den], ties to even. *)
Definition round_half_even (num : N) (den : positive) : N :=
  let q := (num / Npos den)%N in
  let r := (num mod Npos den)%N in
  match (2 * r ?= Npos den)%N with
  | Lt => q
  | Gt => (q + 1)%N
  | Eq => if N.even q then q else (q + 1)%N
  end.

(** The finite value [m * 2^e] in hundredths, correctly rounded. *)
Definition hundredths (m : positive) (e : Z) : N :=
  match e with
  | Z0 => Npos m * 100
  | Zpos p => Npos m * 100 * 2 ^ Npos p
  | Zneg p => round_half_even (Npos m * 100) (2 ^ p)
  end%N.

(** A comma before every group of three digits, counted from the right. *)
Fixpoint group_thousands (digits : string) : string :=
  match digits with
  | EmptyString => EmptyString
  | String c rest =>
      String c
        (if (0 <? length rest)%nat && (length rest mod 3 =? 0)%nat
         then "," ++ group_thousands rest
         else group_thousands rest)
  end.

Definition two_digits (n : N) : string :=
  if (n <? 10)%N then "0" ++ str_of_N n else str_of_N n.

Definition sign_str (s : bool) : string := if s then "-" else EmptyString.

Definition format_comma_2f (x : float) : string :=
  match x with
  | S754_nan => "nan"
  | S754_infinity s => sign_str s ++ "inf"
  | S754_zero s => sign_str s ++ "0.00"
  | S754_finite s m e =>
      let h := hundredths m e in
      sign_str s ++ group_thousands (str_of_N (h / 100)) ++ "."
                 ++ two_digits (h mod 100)
  end.

(** *** exceptions *)

Inductive exn : Type :=
| FileNotFoundError (msg : string)
| IndexError (msg : string)
| OtherException (msg : string).

Definition str_of_exn (e : exn) : string :=
  match e with
  | FileNotFoundError msg | IndexError msg | OtherException msg => msg
  end.

(** *** [dict.get], [in] and [list.index] *)

Fixpoint dict_lookup {V} (d : list (string * V)) (k : string) : option V :=
  match d with
  | [] => None
  | (k', v) :: d' => if String.eqb k' k then Some v else dict_lookup d' k
  end.

Definition dict_get {V} (d : list (string * V)) (k : string) (default : V)
  : V :=
  match dict_lookup d k with
  | Some v => v
  | None => default
  end.

Definition contains (l : list string) (x : string) : bool :=
  existsb (String.eqb x) l.

(** [l.index(x)]; the script calls it only under [x in l], where it
    does not raise. *)
Fixpoint index (l : list string) (x : string) : nat :=
  match l with
  | [] => 0
  | y :: l' => if String.eqb y x then 0 else S (index l' x)
  end.

(** Indexing a one-dimensional array at [0]. *)
Definition getitem0 {A} (arr : list A) : exn + A :=
  match arr with
  | a :: _ => inr a
  | [] => inl (IndexError "index 0 is out of bounds for axis 0 with size 0")
  end.

(** Truth value of a [str]. *)
Definition truthy (s : string) : bool :=
  match s with
  | EmptyString => false
  | String _ _ => true
  end.

Definition dq : string := String "034"%char EmptyString.
Definition nl : string := String "010"%char EmptyString.

(** *** [sorted] on a list of [str] *)

Fixpoint insert_sorted (x : string) (l : list string) : list string :=
  match l with
  | [] => [x]
  | y :: l' => if String.leb x y then x :: l else y :: insert_sorted x l'
  end.

(** Strings are compared by code point, which on UTF-8 bytes is the
    order of [String.compare].  Inserting from the right, in front of
    the first element that is not smaller, keeps equal elements in their
    order, as Python's stable sort does. *)
Definition sorted (l : list string) : list string :=
  fold_right insert_sorted [] l.

End Py.

(** ** The observable actions of one run of the script *)

Record DataFrame : Type := mkDataFrame {
  df_rows : list (list (string + Z));
  df_columns : list string
}.

(** The unpickled pipeline is opaque to the script apart from [predict],
    which returns a one-dimensional array of floats or raises. *)
Record Pipeline : Type := mkPipeline {
  predict : DataFrame -> Py.exn + list Py.float
}.

Module St.

Inductive event : Type :=
| set_page_config (page_title page_icon layout : string)
| joblib_load (path : string)
| success (body : string)
| error (body : string)
| warning (body : string)
| info (body : string)
| markdown (body : string) (unsafe_allow_html : bool)
| title (body : string)
| write (body : string)
| header (body : string)
| subheader (body : string)
| columns (n : Z)
| text_input (label placeholder help : string)
| selectbox (label : string) (options : list string) (index : nat)
            (help : string)
| number_input (label : string) (min_value max_value value step : Z)
               (help : string)
| slider (label : string) (min_value max_value value step : Z)
         (help : string)
| button (label : string)
| spinner_enter (text : string)
| spinner_exit
| time_sleep (secs : Z)
| model_predict (input : DataFrame)
| balloons
| stop.

(** How a block of the script ends: normally, by a Python exception, or
    by the control-flow signal of [st.stop], which no [except Exception]
    clause catches. *)
Inductive outcome (A : Type) : Type :=
| Normal (a : A)
| Raised (e : Py.exn)
| Stopped.
Arguments Normal {A} a.
Arguments Raised {A} e.
Arguments Stopped {A}.

(** A block is the trace of what it did and how it ended. *)
Definition M (A : Type) : Type := list event * outcome A.

Definition ret {A} (a : A) : M A := ([], Normal a).

Definition bind {A B} (c : M A) (k : A -> M B) : M B :=
  match c with
  | (t, Normal a) => let (t', o) := k a in ((t ++ t')%list, o)
  | (t, Raised e) => (t, Raised e)
  | (t, Stopped) => (t, Stopped)
  end.

(** A call that shows or does [e] and returns [a]. *)
Definition call {A} (e : event) (a : A) : M A := ([e], Normal a).
Definition emit (e : event) : M unit := call e tt.
Definition raise {A} (e : Py.exn) : M A := ([], Raised e).
Definition st_stop {A} : M A := ([stop], Stopped).

(** A call that may raise: [joblib.load], [predict]. *)
Definition call_raising {A} (e : event) (r : Py.exn + A) : M A :=
  ([e], match r with inl x => Raised x | inr a => Normal a end).

(** [try: c  except ...: h e] *)
Definition try_except {A} (c : M A) (h : Py.exn -> M A) : M A :=
  match c with
  | (t, Raised e) => let (t', o) := h e in ((t ++ t')%list, o)
  | _ => c
  end.

(** [with st.spinner(text): c]: the spinner is removed however [c] ends. *)
Definition with_spinner {A} (text : string) (c : M A) : M A :=
  let (t, o) := c in ((spinner_enter text :: t ++ [spinner_exit])%list, o).

Definition trace {A} (c : M A) : list event := fst c.
Definition result {A} (c : M A) : outcome A := snd c.

End St.

Notation "x <- c ;; k" := (St.bind c (fun x => k))
  (at level 61, c at next level, right associativity).
Notation "' pat <- c ;; k" :=
  (St.bind c (fun x => match x with pat => k end))
  (at level 61, pat pattern, c at next level, right associativity).
Notation "c ;;; k" := (St.bind c (fun _ => k))
  (at level 61, right associativity).

(** ** Currency conversion rates, relative to USD *)

Definition USD_TO_INR_RATE : Py.float := Py.float_of_ratio 835 10.
Definition USD_TO_EUR_RATE : Py.float := Py.float_of_ratio 92 100.
Definition USD_TO_GBP_RATE : Py.float := Py.float_of_ratio 79 100.
Definition USD_TO_CAD_RATE : Py.float := Py.float_of_ratio 137 100.
Definition USD_TO_AUD_RATE : Py.float := Py.float_of_ratio 150 100.
Definition USD_TO_JPY_RATE : Py.float := Py.float_of_ratio 1570 10.
Definition USD_TO_CHF_RATE : Py.float := Py.float_of_ratio 89 100.

Record CurrencyInfo : Type := mkCurrency {
  symbol : string;
  name : string;
  rate : Py.float
}.

Definition COUNTRY_CURRENCIES : list (string * CurrencyInfo) :=
  [ ("US", mkCurrency "$" "USD" (Py.float_of_ratio 10 10));
    ("GB", mkCurrency "£" "GBP" USD_TO_GBP_RATE);
    ("CA", mkCurrency "C$" "CAD" USD_TO_CAD_RATE);
    ("DE", mkCurrency "€" "EUR" USD_TO_EUR_RATE);
    ("IN", mkCurrency "₹" "INR" USD_TO_INR_RATE);
    ("FR", mkCurrency "€" "EUR" USD_TO_EUR_RATE);
    ("ES", mkCurrency "€" "EUR" USD_TO_EUR_RATE);
    ("AU", mkCurrency "A$" "AUD" USD_TO_AUD_RATE);
    ("BR", mkCurrency "R$" "BRL" (Py.float_of_ratio 540 100));
    ("NL", mkCurrency "€" "EUR" USD_TO_EUR_RATE);
    ("JP", mkCurrency "¥" "JPY" USD_TO_JPY_RATE);
    ("CH", mkCurrency "CHF" "CHF" USD_TO_CHF_RATE);
    ("IT", mkCurrency "€" "EUR" USD_TO_EUR_RATE);
    ("PL", mkCurrency "zł" "PLN" (Py.float_of_ratio 405 100));
    ("PT", mkCurrency "€" "EUR" USD_TO_EUR_RATE);
    ("MX", mkCurrency "$" "MXN" (Py.float_of_ratio 180 10));
    ("DK", mkCurrency "kr" "DKK" (Py.float_of_ratio 690 100));
    ("GR", mkCurrency "€" "EUR" USD_TO_EUR_RATE);
    ("TR", mkCurrency "₺" "TRY" (Py.float_of_ratio 325 10));
    ("AT", mkCurrency "€" "EUR" USD_TO_EUR_RATE);
    ("BE", mkCurrency "€" "EUR" USD_TO_EUR_RATE);
    ("IE", mkCurrency "€" "EUR" USD_TO_EUR_RATE);
    ("LU", mkCurrency "€" "EUR" USD_TO_EUR_RATE);
    ("NG", mkCurrency "₦" "NGN" (Py.float_of_ratio 15000 10));
    ("PK", mkCurrency "₨" "PKR" (Py.float_of_ratio 2780 10));
    ("RU", mkCurrency "₽" "RUB" (Py.float_of_ratio 870 10));
    ("SG", mkCurrency "S$" "SGD" (Py.float_of_ratio 135 100));
    ("UA", mkCurrency "₴" "UAH" (Py.float_of_ratio 400 10));
    ("AE", mkCurrency "د.إ" "AED" (Py.float_of_ratio 367 100));
    ("CL", mkCurrency "CLP" "CLP" (Py.float_of_ratio 9300 10));
    ("CO", mkCurrency "$" "COP" (Py.float_of_ratio 40000 10));
    ("CY", mkCurrency "€" "EUR" USD_TO_EUR_RATE);
    ("CZ", mkCurrency "Kč" "CZK" (Py.float_of_ratio 230 10));
    ("EE", mkCurrency "€" "EUR" USD_TO_EUR_RATE);
    ("FI", mkCurrency "€" "EUR" USD_TO_EUR_RATE);
    ("GH", mkCurrency "₵" "GHS" (Py.float_of_ratio 150 10));
    ("HR", mkCurrency "€" "EUR" USD_TO_EUR_RATE);
    ("HU", mkCurrency "Ft" "HUF" (Py.float_of_ratio 3600 10));
    ("IR", mkCurrency "﷼" "IRR" (Py.float_of_ratio 420000 10));
    ("MT", mkCurrency "€" "EUR" USD_TO_EUR_RATE);
    ("NZ", mkCurrency "NZ$" "NZD" (Py.float_of_ratio 163 100));
    ("PH", mkCurrency "₱" "PHP" (Py.float_of_ratio 580 10));
    ("PR", mkCurrency "$" "USD" (Py.float_of_ratio 10 10));
    ("RO", mkCurrency "lei" "RON" (Py.float_of_ratio 460 100));
    ("SI", mkCurrency "€" "EUR" USD_TO_EUR_RATE);
    ("SK", mkCurrency "€" "EUR" USD_TO_EUR_RATE);
    ("TH", mkCurrency "฿" "THB" (Py.float_of_ratio 360 10));
    ("VN", mkCurrency "₫" "VND" (Py.float_of_ratio 254000 10)) ].

(** The default of the lookup in the handler:
    [{"symbol": "$", "name": "USD", "rate": 1.0}]. *)
Definition default_currency : CurrencyInfo :=
  mkCurrency "$" "USD" (Py.float_of_ratio 10 10).

(** ** The option lists of the select widgets *)

Definition experience_level_options : list string :=
  ["Entry-level"; "Mid-level"; "Senior"; "Executive"].

Definition company_location_options : list string :=
  Py.sorted
    [ "US"; "GB"; "CA"; "DE"; "IN"; "FR"; "ES"; "AU"; "BR"; "NL"; "JP"; "CH";
      "IT"; "PL"; "PT"; "MX"; "DK"; "GR"; "TR"; "AT"; "BE"; "IE"; "LU"; "NG";
      "PK"; "RU"; "SG"; "UA"; "AE"; "CL"; "CO"; "CY"; "CZ"; "EE"; "FI"; "GH";
      "HR"; "HU"; "IR"; "MT"; "NZ"; "PH"; "PR"; "RO"; "SI"; "SK"; "TH"; "VN" ].

Definition job_title_options : list string :=
  Py.sorted
    [ "Data Scientist"; "Machine Learning Engineer"; "Data Engineer";
      "Analytics Engineer"; "Data Analyst"; "Research Scientist";
      "AI Engineer"; "Big Data Engineer"; "BI Developer";
      "Computer Vision Engineer"; "Data Architect"; "Data Science Consultant";
      "Deep Learning Engineer"; "ETL Developer"; "Financial Data Analyst";
      "Head of Data"; "Lead Data Analyst"; "Lead Data Scientist";
      "ML Engineer"; "Principal Data Scientist"; "Research Engineer";
      "Software Engineer"; "Other" ].

(** ** The prediction panel *)

Definition currency_span (label : string) : string :=
  "<span class=" ++ Py.dq ++ "currency-text" ++ Py.dq ++ "> (" ++ label
  ++ ")</span>".

Definition usd_line (predicted_salary_usd : Py.float) : string :=
  "<br>$" ++ Py.format_comma_2f predicted_salary_usd ++ currency_span "USD".

Definition inr_line (predicted_salary_usd : Py.float) : string :=
  "<br>₹"
  ++ Py.format_comma_2f (Py.fmul predicted_salary_usd USD_TO_INR_RATE)
  ++ currency_span "INR".

Definition local_line (local_currency_info : CurrencyInfo)
    (predicted_salary_local : Py.float) : string :=
  "<br>" ++ symbol local_currency_info
  ++ Py.format_comma_2f predicted_salary_local
  ++ currency_span (name local_currency_info).

(** [local_currency_info["name"] != "USD" and ... != "INR"] *)
Definition shows_local (local_currency_info : CurrencyInfo) : bool :=
  negb (String.eqb (name local_currency_info) "USD")
  && negb (String.eqb (name local_currency_info) "INR").

Definition input_summary
    (experience_level job_title company_location : string)
    (work_year remote_ratio : Z) : string :=
  Py.nl
  ++ "            <div class=" ++ Py.dq ++ "input-summary" ++ Py.dq ++ ">"
  ++ Py.nl
  ++ "                <p>Based on your inputs:</p>" ++ Py.nl
  ++ "                <ul>" ++ Py.nl
  ++ "                    <li>Experience Level: <b>" ++ experience_level
  ++ "</b></li>" ++ Py.nl
  ++ "                    <li>Job Title: <b>" ++ job_title ++ "</b></li>"
  ++ Py.nl
  ++ "                    <li>Company Location: <b>" ++ company_location
  ++ "</b></li>" ++ Py.nl
  ++ "                    <li>Work Year: <b>" ++ Py.str_of_int work_year
  ++ "</b></li>" ++ Py.nl
  ++ "                    <li>Remote Ratio: <b>" ++ Py.str_of_int remote_ratio
  ++ "%</b></li>" ++ Py.nl
  ++ "                </ul>" ++ Py.nl
  ++ "            </div>" ++ Py.nl
  ++ "            ".

Definition local_currency_info_of (company_location : string)
  : CurrencyInfo :=
  Py.dict_get COUNTRY_CURRENCIES company_location default_currency.

Definition predicted_salary_local_of (predicted_salary_usd : Py.float)
    (company_location : string) : Py.float :=
  Py.fmul predicted_salary_usd (rate (local_currency_info_of company_location)).

Definition panel_header (employee_name : string) : string :=
  "<div class=" ++ Py.dq ++ "prediction-output" ++ Py.dq
  ++ ">Predicted Salary for " ++ employee_name ++ ":".

(** The string built by the successive [output_string += ...]. *)
Definition output_string_of
    (employee_name experience_level job_title company_location : string)
    (work_year remote_ratio : Z) (predicted_salary_usd : Py.float) : string :=
  let local_currency_info := local_currency_info_of company_location in
  let predicted_salary_local :=
    predicted_salary_local_of predicted_salary_usd company_location in
  let output_string := panel_header employee_name in
  let output_string := output_string ++ usd_line predicted_salary_usd in
  let output_string := output_string ++ inr_line predicted_salary_usd in
  let output_string :=
    if shows_local local_currency_info
    then output_string ++ local_line local_currency_info predicted_salary_local
    else output_string in
  let output_string :=
    output_string
    ++ input_summary experience_level job_title company_location
         work_year remote_ratio in
  output_string ++ "</div>".

(** ** One run of the script *)

(** What the widgets return in this run. *)
Record Inputs : Type := mkInputs {
  in_employee_name : string;
  in_experience_level : string;
  in_company_location : string;
  in_work_year : Z;
  in_remote_ratio : Z;
  in_job_title : string;
  in_predict_clicked : bool
}.

Definition model_file : string := "salary_prediction_model.pkl".

Definition feature_columns : list string :=
  ["experience_level"; "job_title"; "company_location"; "remote_ratio";
   "work_year"].

Section Script.

(** The style sheet passed to the first [st.markdown] call; the script
    only hands it over. *)
Variable page_style : string.

(** [joblib.load] in the environment of the run. *)
Variable load : string -> Py.exn + Pipeline.

Variable ui : Inputs.

Definition load_model : St.M Pipeline :=
  St.try_except
    (model_pipeline <- St.call_raising (St.joblib_load model_file)
                                       (load model_file) ;;
     St.emit (St.success "Machine Learning model loaded successfully!") ;;;
     St.ret model_pipeline)
    (fun e =>
       match e with
       | Py.FileNotFoundError _ =>
           St.emit (St.error "Error: Model file 'salary_prediction_model.pkl' not found. Please ensure your trained model is saved and accessible in the same directory.") ;;;
           St.st_stop
       | _ =>
           St.emit (St.error ("Error loading the model: "
                              ++ Py.str_of_exn e)) ;;;
           St.st_stop
       end).

Definition page_intro : St.M unit :=
  St.emit (St.markdown page_style true) ;;;
  St.emit (St.title "💰 Employee Salary Prediction") ;;;
  St.emit (St.write
    (Py.nl ++ "    Welcome to the Employee Salary Predictor!" ++ Py.nl
     ++ "    Enter the employee's details below to get an estimated salary."
     ++ Py.nl
     ++ "    This tool uses a machine learning model to provide an estimated salary based on key attributes."
     ++ Py.nl ++ "    ")) ;;;
  St.emit (St.header "Employee Information").

(** The widgets, in the order the script creates them; the two
    [with col:] blocks only place them on the page. *)
Definition form : St.M (string * string * string * Z * Z * string) :=
  St.emit (St.columns 2) ;;;
  employee_name <-
    St.call (St.text_input "Employee Name" "e.g., Jane Doe"
               "Enter the employee's full name.")
            (in_employee_name ui) ;;
  experience_level <-
    St.call (St.selectbox "Experience Level" experience_level_options 0
               "Select the employee's experience level.")
            (in_experience_level ui) ;;
  company_location <-
    St.call (St.selectbox "Company Location (Country Code)"
               company_location_options
               (if Py.contains company_location_options "IN"
                then Py.index company_location_options "IN" else 0)
               "Select the company's country location (e.g., US, IN).")
            (in_company_location ui) ;;
  work_year <-
    St.call (St.number_input "Work Year" 2020 2025 2024 1
               "Enter the year the salary data pertains to.")
            (in_work_year ui) ;;
  remote_ratio <-
    St.call (St.slider "Remote Work Ratio (%)" 0 100 0 5
               "Percentage of remote work (0 for no remote, 100 for fully remote).")
            (in_remote_ratio ui) ;;
  job_title <-
    St.call (St.selectbox "Job Title" job_title_options 0
               "Select the employee's job title.")
            (in_job_title ui) ;;
  St.ret (employee_name, experience_level, company_location, work_year,
          remote_ratio, job_title).

Definition confirmation
    (employee_name experience_level company_location : string)
    (work_year remote_ratio : Z) (job_title : string) : St.M unit :=
  St.emit (St.markdown "---" false) ;;;
  St.emit (St.subheader "Current Selections (For Confirmation):") ;;;
  St.emit (St.write ("**Employee Name:** "
                     ++ (if Py.truthy employee_name then employee_name
                         else "Not entered"))) ;;;
  St.emit (St.write ("**Experience Level:** " ++ experience_level)) ;;;
  St.emit (St.write ("**Company Location:** " ++ company_location)) ;;;
  St.emit (St.write ("**Work Year:** " ++ Py.str_of_int work_year)) ;;;
  St.emit (St.write ("**Remote Ratio:** " ++ Py.str_of_int remote_ratio
                     ++ "%")) ;;;
  St.emit (St.write ("**Job Title:** " ++ job_title)) ;;;
  St.emit (St.markdown "---" false).

(** The body of [if st.button("Predict Salary"):]. *)
Definition on_predict (model_pipeline : Pipeline)
    (employee_name experience_level company_location : string)
    (work_year remote_ratio : Z) (job_title : string) : St.M unit :=
  if negb (Py.truthy employee_name) then
    St.emit (St.warning "Please enter the Employee Name.")
  else
    let input_data :=
      mkDataFrame
        [[inl experience_level; inl job_title; inl company_location;
          inr remote_ratio; inr work_year]]
        feature_columns in
    St.try_except
      (predicted_salary_usd <-
         St.with_spinner "Calculating salary..."
           (St.emit (St.time_sleep 1) ;;;
            prediction <- St.call_raising (St.model_predict input_data)
                                          (predict model_pipeline input_data) ;;
            match Py.getitem0 prediction with
            | inl e => St.raise e
            | inr x => St.ret x
            end) ;;
       let output_string :=
         output_string_of employee_name experience_level job_title
           company_location work_year remote_ratio predicted_salary_usd in
       St.emit (St.markdown output_string true) ;;;
       St.emit St.balloons)
      (fun e =>
         St.emit (St.error ("An error occurred during prediction: "
                            ++ Py.str_of_exn e)) ;;;
         St.emit (St.warning "Please check your input values and ensure the model is correctly trained for these features.")).

Definition page_footer : St.M unit :=
  St.emit (St.markdown "---" false) ;;;
  St.emit (St.info "This application uses a Machine Learning model to predict salaries. Predictions are estimates and should be used for informational purposes only. **The INR and other local currency conversions are direct exchanges from the USD prediction, not independent predictions of local market salaries. Real-time market rates and local economic factors can cause significant variations.**").

Definition app_py : St.M unit :=
  St.emit (St.set_page_config "Employee Salary Predictor" "💰" "centered") ;;;
  model_pipeline <- load_model ;;
  page_intro ;;;
  '(employee_name, experience_level, company_location, work_year,
    remote_ratio, job_title) <- form ;;
  confirmation employee_name experience_level company_location work_year
    remote_ratio job_title ;;;
  clicked <- St.call (St.button "Predict Salary") (in_predict_clicked ui) ;;
  (if clicked
   then on_predict model_pipeline employee_name experience_level
          company_location work_year remote_ratio job_title
   else St.ret tt) ;;;
  page_footer.

End Script.

(** ** Observations on a trace *)

Module Trace.

Definition predict_calls (t : list St.event) : list DataFrame :=
  flat_map (fun e => match e with St.model_predict d => [d] | _ => [] end) t.

Definition delays (t : list St.event) : list Z :=
  flat_map (fun e => match e with St.time_sleep n => [n] | _ => [] end) t.

(** The bodies handed to [st.markdown(..., unsafe_allow_html=True)]. *)
Definition html_bodies (t : list St.event) : list string :=
  flat_map (fun e => match e with St.markdown b true => [b] | _ => [] end) t.

(** A prediction call with the one-second delay right after it. *)
Definition delay_follows_prediction (t : list St.event) : Prop :=
  exists before input after,
    t = (before ++ St.model_predict input :: St.time_sleep 1 :: after)%list.

(** The one-second delay with a prediction call right after it. *)
Definition prediction_follows_delay (t : list St.event) : Prop :=
  exists before input after,
    t = (before ++ St.time_sleep 1 :: St.model_predict input :: after)%list.

Fixpoint delay_follows_predictionb (t : list St.event) : bool :=
  match t with
  | [] => false
  | e :: t' =>
      match e, t' with
      | St.model_predict _, St.time_sleep 1 :: _ => true
      | _, _ => delay_follows_predictionb t'
      end
  end.

End Trace.

(** [sub] occurs in [s]. *)
Definition occurs_in (sub s : string) : Prop :=
  exists before after, s = before ++ sub ++ after.

(** ** The text a browser shows for a fragment of the panel *)

Module Html.

(** Drop the markup: everything from a [<] to the next [>]. *)
Fixpoint strip_tags (inside : bool) (s : string) : string :=
  match s with
  | EmptyString => EmptyString
  | String c rest =>
      if inside
      then strip_tags (negb (Ascii.eqb c ">")) rest
      else if Ascii.eqb c "<" then strip_tags true rest
           else String c (strip_tags false rest)
  end.

(** Cut at every [<br>]; [skip] characters of a [<br>] are still to drop. *)
Fixpoint split_br (skip : nat) (s : string) : list string :=
  match s with
  | EmptyString => [EmptyString]
  | String c rest =>
      match skip with
      | S k => split_br k rest
      | O =>
          if String.prefix "<br>" s
          then EmptyString :: split_br 3 rest
          else match split_br 0 rest with
               | l :: ls => String c l :: ls
               | [] => [String c EmptyString]
               end
      end
  end.

Definition text_lines (html : string) : list string :=
  map (strip_tags false) (split_br 0 html).

End Html.

(** ** The script up to the button, and after the handler *)

Definition page_events (page_style : string) (ui : Inputs)
  : list St.event :=
  ([ St.set_page_config "Employee Salary Predictor" "💰" "centered";
     St.joblib_load model_file;
     St.success "Machine Learning model loaded successfully!" ]
   ++ St.trace (page_intro page_style)
   ++ St.trace (form ui)
   ++ St.trace (confirmation (in_employee_name ui) (in_experience_level ui)
                  (in_company_location ui) (in_work_year ui)
                  (in_remote_ratio ui) (in_job_title ui))
   ++ [ St.button "Predict Salary" ])%list.

Definition input_data_of (ui : Inputs) : DataFrame :=
  mkDataFrame
    [[inl (in_experience_level ui); inl (in_job_title ui);
      inl (in_company_location ui); inr (in_remote_ratio ui);
      inr (in_work_year ui)]]
    feature_columns.

(** The handler on the values of the widgets. *)
Definition handler (model_pipeline : Pipeline) (ui : Inputs) : St.M unit :=
  on_predict model_pipeline (in_employee_name ui) (in_experience_level ui)
    (in_company_location ui) (in_work_year ui) (in_remote_ratio ui)
    (in_job_title ui).

Definition panel_of (ui : Inputs) (predicted_salary_usd : Py.float) : string :=
  output_string_of (in_employee_name ui) (in_experience_level ui)
    (in_job_title ui) (in_company_location ui) (in_work_year ui)
    (in_remote_ratio ui) predicted_salary_usd.

(** The message shown when the model cannot be loaded. *)
Definition load_error_message (e : Py.exn) : string :=
  match e with
  | Py.FileNotFoundError _ =>
      "Error: Model file 'salary_prediction_model.pkl' not found. Please ensure your trained model is saved and accessible in the same directory."
  | _ => "Error loading the model: " ++ Py.str_of_exn e
  end.

(** The currency lines of the panel, between its header and the summary
    of the inputs. *)
Definition currency_lines (company_location : string)
    (predicted_salary_usd : Py.float) : string :=
  usd_line predicted_salary_usd
  ++ inr_line predicted_salary_usd
  ++ (if shows_local (local_currency_info_of company_location)
      then local_line (local_currency_info_of company_location)
             (predicted_salary_local_of predicted_salary_usd company_location)
      else EmptyString).

(** ** Sample runs *)

Definition stub (x : Py.float) : Pipeline := mkPipeline (fun _ => inr [x]).

Definition sample_style : string := "<style></style>".

Definition sample_ui (employee_name company_location : string) : Inputs :=
  mkInputs employee_name "Senior" company_location 2024 50 "Data Scientist"
           true.

Definition load_stub (x : Py.float) : string -> Py.exn + Pipeline :=
  fun _ => inr (stub x).


Definition usd_100000 : Py.float := Py.float_of_ratio 10000000 100.

(** Pipelines whose [predict] fails. *)
Definition stub_raising (e : Py.exn) : Pipeline :=
  mkPipeline (fun _ => inl e).

Definition stub_empty : Pipeline := mkPipeline (fun _ => inr []).

(** What the handler does after the name check when no salary comes
    back: the [except Exception as e] branch. *)
Definition prediction_failed_events (ui : Inputs) (e : Py.exn)
  : list St.event :=
  [ St.spinner_enter "Calculating salary...";
    St.time_sleep 1;
    St.model_predict (input_data_of ui);
    St.spinner_exit;
    St.error ("An error occurred during prediction: " ++ Py.str_of_exn e);
    St.warning "Please check your input values and ensure the model is correctly trained for these features." ].

(** The binary64 values: finite ones have a canonical mantissa and an
    exponent in range. *)
Definition valid_float (x : Py.float) : bool :=
  valid_binary Py.prec Py.emax x.

Definition leb_str (a b : string) : Prop := String.leb a b = true.

Fixpoint remove_commas (s : string) : string :=
  match s with
  | EmptyString => EmptyString
  | String c rest =>
      if Ascii.eqb c "," then remove_commas rest
      else String c (remove_commas rest)
  end.

(** * The training script [train_model.py]

    The script reads the data set, drops the rows without a target,
    checks the columns, and fits, evaluates and saves the pipeline.  The
    calls into pandas' reader and into scikit-learn and joblib are given
    by the environment of the run and may raise; what the script itself
    does with the table (shape, [dropna], the null counts, the column
    check, the selection of the columns) is computed. *)

Module Train.

(** A cell of the table; [None] is a missing value (NaN). *)
Definition cell : Type := option (string + Z).

Record Frame : Type := mkFrame {
  fr_columns : list string;
  fr_rows : list (list cell)
}.

Definition isna (x : cell) : bool :=
  match x with
  | None => true
  | Some _ => false
  end.

(** The cell of [row] under the column [c] of a table with columns
    [cols]. *)
Definition cell_at (cols : list string) (row : list cell) (c : string)
  : cell :=
  nth (Py.index cols c) row None.

(** [df.shape], printed as a tuple. *)
Definition shape (df : Frame) : nat * nat :=
  (List.length (fr_rows df), List.length (fr_columns df)).

Definition str_of_shape (sh : nat * nat) : string :=
  "(" ++ Py.str_of_int (Z.of_nat (fst sh)) ++ ", "
  ++ Py.str_of_int (Z.of_nat (snd sh)) ++ ")".

(** [df.head()] *)
Definition head (df : Frame) : Frame :=
  mkFrame (fr_columns df) (firstn 5 (fr_rows df)).

(** [df.dropna(subset=[c])]: a [KeyError], whose text is the list of
    the absent labels, when [c] is not a column; otherwise the rows
    whose cell under [c] is present, in their order. *)
Definition dropna (df : Frame) (c : string) : Py.exn + Frame :=
  if Py.contains (fr_columns df) c
  then inr (mkFrame (fr_columns df)
              (filter (fun row => negb (isna (cell_at (fr_columns df) row c)))
                      (fr_rows df)))
  else inl (Py.OtherException ("['" ++ c ++ "']")).

(** [df.isnull().sum()]: for each column the number of missing cells. *)
Definition isnull_sum (df : Frame) : list (string * nat) :=
  map (fun c =>
         (c, List.length
               (filter (fun row => isna (cell_at (fr_columns df) row c))
                       (fr_rows df))))
      (fr_columns df).

(** [df[cols]] and [df[c]] for columns that the table has. *)
Definition select (df : Frame) (cols : list string) : Frame :=
  mkFrame cols
    (map (fun row => map (cell_at (fr_columns df) row) cols) (fr_rows df)).

Definition column (df : Frame) (c : string) : list cell :=
  map (fun row => cell_at (fr_columns df) row c) (fr_rows df).

(** The estimators that the script assembles. *)
Inductive Estimator : Type :=
| SimpleImputer (strategy : string)
| StandardScaler
| OneHotEncoder (handle_unknown : string)
| RandomForestRegressor (n_estimators random_state : Z)
| ColumnTransformer
    (transformers : list (string * list (string * Estimator) * list string))
    (remainder : string).

(** The fitted pipeline as the script uses it. *)
Record Fitted : Type := mkFitted {
  fitted_predict : Frame -> Py.exn + list Py.float
}.

Record Env : Type := mkEnv {
  read_csv : string -> Py.exn + Frame;
  train_test_split :
    Frame -> list cell -> Py.exn + (Frame * Frame * list cell * list cell);
  fit : list (string * Estimator) -> Frame -> list cell -> Py.exn + Fitted;
  r2_score : list cell -> list Py.float -> Py.exn + Py.float;
  mean_absolute_error : list cell -> list Py.float -> Py.exn + Py.float;
  mean_squared_error : list cell -> list Py.float -> Py.exn + Py.float;
  dump : Fitted -> string -> Py.exn + unit
}.

(** What a run does, as seen from outside.  A [print] of a table, of
    the null counts or of an f-string that ends in a list is recorded
    with the value printed, not with pandas' or Python's rendering of
    it. *)
Inductive event : Type :=
| ev_read_csv (path : string)
| ev_print (text : string)
| ev_print_frame (df : Frame)
| ev_info (df : Frame)
| ev_print_counts (counts : list (string * nat))
| ev_print_with_list (text : string) (items : list string)
| ev_exit
| ev_split (X : Frame) (y : list cell) (test_percent random_state : Z)
| ev_fit (steps : list (string * Estimator)) (X : Frame) (y : list cell)
| ev_predict (X : Frame)
| ev_dump (model : Fitted) (filename : string).

(** How the script ends: at its last line, by an uncaught exception,
    or by [exit()]. *)
Inductive outcome (A : Type) : Type :=
| Normal (a : A)
| Raised (e : Py.exn)
| Exited.
Arguments Normal {A} a.
Arguments Raised {A} e.
Arguments Exited {A}.

Definition M (A : Type) : Type := list event * outcome A.

Definition ret {A} (a : A) : M A := ([], Normal a).

Definition bind {A B} (c : M A) (k : A -> M B) : M B :=
  match c with
  | (t, Normal a) => let (t', o) := k a in ((t ++ t')%list, o)
  | (t, Raised e) => (t, Raised e)
  | (t, Exited) => (t, Exited)
  end.

Definition emit (e : event) : M unit := ([e], Normal tt).
Definition print (text : string) : M unit := emit (ev_print text).
Definition exit {A} : M A := ([ev_exit], Exited).

(** A library call that is seen from outside, and one that is not. *)
Definition call {A} (e : event) (r : Py.exn + A) : M A :=
  ([e], match r with inl x => Raised x | inr a => Normal a end).

Definition pure_call {A} (r : Py.exn + A) : M A :=
  ([], match r with inl x => Raised x | inr a => Normal a end).

(** [try: c  except FileNotFoundError: h] *)
Definition try_except_file_not_found {A} (c : M A) (h : M A) : M A :=
  match c with
  | (t, Raised (Py.FileNotFoundError _)) =>
      let (t', o) := h in ((t ++ t')%list, o)
  | _ => c
  end.

Definition trace {A} (c : M A) : list event := fst c.
Definition result {A} (c : M A) : outcome A := snd c.

End Train.

Notation "'do' x <~ c ; k" := (Train.bind c (fun x => k))
  (at level 10, x name, c at level 100, k at level 200).
Notation "'do' ' pat <~ c ; k" :=
  (Train.bind c (fun x => match x with pat => k end))
  (at level 10, pat pattern, c at level 100, k at level 200).
Notation "'run' c ; k" := (Train.bind c (fun _ => k))
  (at level 10, c at level 100, k at level 200).

(** [{x:.2f}]: as [,.2f] without the grouping. *)
Definition format_2f (x : Py.float) : string :=
  match x with
  | S754_nan => "nan"
  | S754_infinity s => Py.sign_str s ++ "inf"
  | S754_zero s => Py.sign_str s ++ "0.00"
  | S754_finite s m e =>
      let h := Py.hundredths m e in
      Py.sign_str s ++ Py.str_of_N (h / 100) ++ "."
                    ++ Py.two_digits (h mod 100)
  end.

Definition data_file : string := "ds_salaries.csv".

Definition features : list string :=
  ["experience_level"; "job_title"; "company_location"; "remote_ratio";
   "work_year"].

Definition target : string := "salary_in_usd".

Definition numerical_features : list string := ["remote_ratio"; "work_year"].

Definition categorical_features : list string :=
  ["experience_level"; "job_title"; "company_location"].

Definition numerical_transformer : list (string * Train.Estimator) :=
  [ ("imputer", Train.SimpleImputer "mean");
    ("scaler", Train.StandardScaler) ].

Definition categorical_transformer : list (string * Train.Estimator) :=
  [ ("imputer", Train.SimpleImputer "most_frequent");
    ("onehot", Train.OneHotEncoder "ignore") ].

Definition preprocessor : Train.Estimator :=
  Train.ColumnTransformer
    [ ("num", numerical_transformer, numerical_features);
      ("cat", categorical_transformer, categorical_features) ]
    "passthrough".

Definition model_pipeline_steps : list (string * Train.Estimator) :=
  [ ("preprocessor", preprocessor);
    ("regressor", Train.RandomForestRegressor 100 42) ].

Definition model_filename : string := "salary_prediction_model.pkl".

(** [[col for col in features + [target] if col not in df.columns]] *)
Definition missing_cols_of (df : Train.Frame) : list string :=
  filter (fun col => negb (Py.contains (Train.fr_columns df) col))
         (features ++ [target])%list.

Section TrainScript.

Variable env : Train.Env.

(** Section 1: load the data set. *)
Definition load_dataset : Train.M Train.Frame :=
  Train.try_except_file_not_found
    (do df <~ Train.call (Train.ev_read_csv data_file)
                         (Train.read_csv env data_file);
     run Train.print "Dataset 'ds_salaries.csv' loaded successfully!";
     run Train.print ("Dataset shape before handling NaNs: "
                      ++ Train.str_of_shape (Train.shape df));
     run Train.print (Py.nl ++ "First 5 rows of the dataset:");
     run Train.emit (Train.ev_print_frame (Train.head df));
     Train.ret df)
    (run Train.print "Error: 'ds_salaries.csv' not found. Please make sure the CSV file is in the same directory as this script.";
     Train.exit).

(** Section 2: drop the rows without a target. *)
Definition drop_missing_target (df : Train.Frame) : Train.M Train.Frame :=
  let initial_rows := fst (Train.shape df) in
  do df <~ Train.pure_call (Train.dropna df "salary_in_usd");
  let rows_after_dropping_salary_nan := fst (Train.shape df) in
  run (if (0 <? Z.of_nat initial_rows
               - Z.of_nat rows_after_dropping_salary_nan)%Z
       then Train.print
              (Py.nl ++ "Dropped "
               ++ Py.str_of_int (Z.of_nat initial_rows
                                 - Z.of_nat rows_after_dropping_salary_nan)
               ++ " rows with missing 'salary_in_usd' values.")
       else Train.ret tt);
  run Train.print ("Dataset shape after handling 'salary_in_usd' NaNs: "
                   ++ Train.str_of_shape (Train.shape df));
  Train.ret df.

(** Section 3: the basic checks. *)
Definition basic_checks (df : Train.Frame) : Train.M unit :=
  run Train.print (Py.nl ++ "--- Dataset Info ---");
  run Train.emit (Train.ev_info df);
  run Train.print
        (Py.nl ++ "--- Missing Values Check (after dropping Salary NaNs) ---");
  Train.emit (Train.ev_print_counts (Train.isnull_sum df)).

(** Section 4, first part: the required columns. *)
Definition check_columns (df : Train.Frame) : Train.M unit :=
  let missing_cols := missing_cols_of df in
  match missing_cols with
  | _ :: _ =>
      run Train.emit
            (Train.ev_print_with_list
               (Py.nl ++ "Error: The following required columns are missing from your dataset: ")
               missing_cols);
      run Train.print "Please adjust the 'features' and 'target' lists in the script to match your dataset's column names.";
      Train.exit
  | [] => Train.ret tt
  end.

(** Sections 5 to 7: split, fit, evaluate, save. *)
Definition fit_evaluate_save (df : Train.Frame) : Train.M unit :=
  let X := Train.select df features in
  let y := Train.column df target in
  do '(X_train, X_test, y_train, y_test) <~
     Train.call (Train.ev_split X y 20 42) (Train.train_test_split env X y);
  run Train.print (Py.nl ++ "Training the model...");
  do model_pipeline <~
     Train.call (Train.ev_fit model_pipeline_steps X_train y_train)
                (Train.fit env model_pipeline_steps X_train y_train);
  run Train.print "Model training complete!";
  do y_pred <~ Train.call (Train.ev_predict X_test)
                          (Train.fitted_predict model_pipeline X_test);
  do r2 <~ Train.pure_call (Train.r2_score env y_test y_pred);
  do mae <~ Train.pure_call (Train.mean_absolute_error env y_test y_pred);
  do mse <~ Train.pure_call (Train.mean_squared_error env y_test y_pred);
  let rmse := SFsqrt Py.prec Py.emax mse in
  run Train.print (Py.nl ++ "Model Evaluation on Test Set:");
  run Train.print ("R-squared (R2) Score: " ++ format_2f r2);
  run Train.print ("Mean Absolute Error (MAE): $" ++ Py.format_comma_2f mae);
  run Train.print ("Root Mean Squared Error (RMSE): $"
                   ++ Py.format_comma_2f rmse);
  run Train.call (Train.ev_dump model_pipeline model_filename)
                 (Train.dump env model_pipeline model_filename);
  run Train.print (Py.nl ++ "Model saved successfully as '" ++ model_filename
                   ++ "'");
  Train.print (Py.nl ++ "Now, update your Streamlit app (app.py) to reflect the new input features!").

Definition train_model_py : Train.M unit :=
  do df <~ load_dataset;
  do df <~ drop_missing_target df;
  run basic_checks df;
  run check_columns df;
  fit_evaluate_save df.

End TrainScript.

(** ** The training run up to the column check *)

(** The table after [dropna] on the target, when the target is a column. *)
Definition without_missing_target (df : Train.Frame) : Train.Frame :=
  Train.mkFrame (Train.fr_columns df)
    (filter (fun row =>
               negb (Train.isna (Train.cell_at (Train.fr_columns df) row
                                   "salary_in_usd")))
            (Train.fr_rows df)).

Definition loaded_events (df : Train.Frame) : list Train.event :=
  [ Train.ev_read_csv data_file;
    Train.ev_print "Dataset 'ds_salaries.csv' loaded successfully!";
    Train.ev_print ("Dataset shape before handling NaNs: "
                    ++ Train.str_of_shape (Train.shape df));
    Train.ev_print (Py.nl ++ "First 5 rows of the dataset:");
    Train.ev_print_frame (Train.head df) ].

(** The number of rows that [dropna] removes. *)
Definition dropped_rows (df : Train.Frame) : Z :=
  Z.of_nat (fst (Train.shape df))
  - Z.of_nat (fst (Train.shape (without_missing_target df))).

Definition dropped_events (df : Train.Frame) : list Train.event :=
  ((if (0 <? dropped_rows df)%Z
    then [ Train.ev_print
             (Py.nl ++ "Dropped " ++ Py.str_of_int (dropped_rows df)
              ++ " rows with missing 'salary_in_usd' values.") ]
    else [])
   ++ [ Train.ev_print
          ("Dataset shape after handling 'salary_in_usd' NaNs: "
           ++ Train.str_of_shape (Train.shape (without_missing_target df))) ]
  )%list.

Definition checks_events (df : Train.Frame) : list Train.event :=
  [ Train.ev_print (Py.nl ++ "--- Dataset Info ---");
    Train.ev_info df;
    Train.ev_print
      (Py.nl ++ "--- Missing Values Check (after dropping Salary NaNs) ---");
    Train.ev_print_counts (Train.isnull_sum df) ].

(** ** Observations on a training run *)

Definition fit_calls (t : list Train.event) : list Train.Frame :=
  flat_map (fun e => match e with Train.ev_fit _ X _ => [X] | _ => [] end) t.

Definition dump_calls (t : list Train.event) : list string :=
  flat_map (fun e => match e with Train.ev_dump _ f => [f] | _ => [] end) t.

Definition missing_reports (t : list Train.event) : list (list string) :=
  flat_map (fun e => match e with
                     | Train.ev_print_with_list _ items => [items]
                     | _ => []
                     end) t.

(** ** Sample data sets *)

Definition sample_row (salary : Train.cell) : list Train.cell :=
  [ Some (inr 2023%Z); Some (inl "SE"); Some (inl "Data Scientist");
    salary; Some (inl "US"); Some (inr 100%Z) ].

Definition sample_frame : Train.Frame :=
  Train.mkFrame
    [ "work_year"; "experience_level"; "job_title"; "salary_in_usd";
      "company_location"; "remote_ratio" ]
    [ sample_row (Some (inr 120000%Z)); sample_row None;
      sample_row (Some (inr 95000%Z)) ].

(** The same table without the column [job_title]. *)
Definition sample_frame_no_job_title : Train.Frame :=
  Train.mkFrame
    [ "work_year"; "experience_level"; "salary_in_usd"; "company_location";
      "remote_ratio" ]
    [ [ Some (inr 2023%Z); Some (inl "SE"); Some (inr 120000%Z);
        Some (inl "US"); Some (inr 100%Z) ] ].

(** The same table without the target column. *)
Definition sample_frame_no_target : Train.Frame :=
  Train.mkFrame
    [ "work_year"; "experience_level"; "job_title"; "company_location";
      "remote_ratio" ]
    [ [ Some (inr 2023%Z); Some (inl "SE"); Some (inl "Data Scientist");
        Some (inl "US"); Some (inr 100%Z) ] ].

Definition sample_fitted : Train.Fitted :=
  Train.mkFitted (fun X => inr (map (fun _ => usd_100000) (Train.fr_rows X))).

(** An environment in which every library call succeeds: the reader
    returns [df], and the split puts the first row aside for the test. *)
Definition sample_env (df : Train.Frame) : Train.Env :=
  Train.mkEnv
    (fun _ => inr df)
    (fun X y =>
       inr (Train.mkFrame (Train.fr_columns X) (skipn 1 (Train.fr_rows X)),
            Train.mkFrame (Train.fr_columns X) (firstn 1 (Train.fr_rows X)),
            skipn 1 y, firstn 1 y))
    (fun _ _ _ => inr sample_fitted)
    (fun _ _ => inr (Py.float_of_ratio 85 100))
    (fun _ _ => inr (Py.float_of_ratio 1234550 100))
    (fun _ _ => inr (Py.float_of_Z 400000000))
    (fun _ _ => inr tt).

Definition sample_env_no_file : Train.Env :=
  Train.mkEnv
    (fun path =>
       inl (Py.FileNotFoundError
              ("[Errno 2] No such file or directory: '" ++ path ++ "'")))
    (fun _ _ => inl (Py.OtherException "unused"))
    (fun _ _ _ => inl (Py.OtherException "unused"))
    (fun _ _ => inl (Py.OtherException "unused"))
    (fun _ _ => inl (Py.OtherException "unused"))
    (fun _ _ => inl (Py.OtherException "unused"))
    (fun _ _ => inl (Py.OtherException "unused")).

(** ** A served session

    Streamlit runs the whole script again for every interaction with the
    page; [st.stop] ends the run in which it is called.  A session is the
    sequence of these runs, each with the files and the widget values of
    its moment. *)





(** * Properties *)

(** ** Floats and their formatting on sample values *)

Example rate_83_5 :
  USD_TO_INR_RATE = S754_finite false 5875790138834944 (-46).
Proof. reflexivity. Qed.

Example rate_0_92 :
  USD_TO_EUR_RATE = S754_finite false 8286623314361713 (-53).
Proof. reflexivity. Qed.

Example product_100000_83_5 :
  Py.fmul usd_100000 USD_TO_INR_RATE = Py.float_of_Z 8350000.
Proof. reflexivity. Qed.

Example format_groups_thousands :
  Py.format_comma_2f (Py.float_of_ratio 1234567891 1000) = "1,234,567.89".
Proof. reflexivity. Qed.

Example format_ties_to_even :
  Py.format_comma_2f (Py.float_of_ratio 125 1000) = "0.12"
  /\ Py.format_comma_2f (Py.float_of_ratio 375 1000) = "0.38".
Proof. split; reflexivity. Qed.

Example format_rounds_binary_value :
  Py.format_comma_2f (Py.float_of_ratio 2675 1000) = "2.67".
Proof. reflexivity. Qed.

Example format_carries :
  Py.format_comma_2f (Py.float_of_ratio 999999 1000) = "1,000.00".
Proof. reflexivity. Qed.

Example format_negative_zero :
  Py.format_comma_2f (Py.float_of_ratio (-1) 1000) = "-0.00".
Proof. reflexivity. Qed.

Example format_not_finite :
  Py.format_comma_2f S754_nan = "nan"
  /\ Py.format_comma_2f (S754_infinity true) = "-inf".
Proof. split; reflexivity. Qed.

Example sorted_options_head :
  firstn 4 company_location_options = ["AE"; "AT"; "AU"; "BE"].
Proof. reflexivity. Qed.

Example default_location_index :
  Py.index company_location_options "IN" = 23.
Proof. reflexivity. Qed.

(** ** Strings *)

Lemma append_assoc (a b c : string) : (a ++ b) ++ c = a ++ (b ++ c).
Proof. induction a as [|x a IH]; simpl; [reflexivity | now rewrite IH]. Qed.

Lemma append_empty_r (a : string) : a ++ EmptyString = a.
Proof. induction a as [|x a IH]; simpl; [reflexivity | now rewrite IH]. Qed.

Lemma truthy_nonempty (s : string) : Py.truthy s = true <-> s <> EmptyString.
Proof. destruct s; split; simpl; congruence. Qed.

(** ** Control flow of the handler *)

Lemma on_predict_blank model e c y r j :
  on_predict model EmptyString e c y r j
  = ([St.warning "Please enter the Employee Name."], St.Normal tt).
Proof. reflexivity. Qed.

Lemma handler_success model ui usd rest :
  Py.truthy (in_employee_name ui) = true ->
  predict model (input_data_of ui) = inr (usd :: rest) ->
  handler model ui
  = ([ St.spinner_enter "Calculating salary...";
       St.time_sleep 1;
       St.model_predict (input_data_of ui);
       St.spinner_exit;
       St.markdown (panel_of ui usd) true;
       St.balloons ], St.Normal tt).
Proof.
  intros Hname Hpred. unfold handler, on_predict, panel_of, input_data_of in *.
  rewrite Hname. cbn [negb].
  unfold St.call_raising. rewrite Hpred. reflexivity.
Qed.

Lemma handler_predict_calls model ui :
  Py.truthy (in_employee_name ui) = true ->
  Trace.predict_calls (St.trace (handler model ui)) = [input_data_of ui].
Proof.
  intros Hname. unfold handler, on_predict, input_data_of.
  rewrite Hname. cbn [negb].
  unfold St.call_raising.
  destruct (predict model _) as [e | [| usd rest]]; reflexivity.
Qed.

(** With the model loaded, a run is the page, then the handler when the
    button was clicked, then the footer. *)
Lemma app_loaded page_style load ui model :
  load model_file = inr model ->
  St.trace (app_py page_style load ui)
  = (page_events page_style ui
     ++ (if in_predict_clicked ui then St.trace (handler model ui) else [])
     ++ St.trace page_footer)%list
  /\ St.result (app_py page_style load ui) = St.Normal tt.
Proof.
  intros Hload. unfold app_py, load_model, St.call_raising. rewrite Hload.
  destruct ui as [employee_name experience_level company_location work_year
                  remote_ratio job_title clicked].
  unfold handler, page_events, on_predict, St.call_raising.
  cbn [in_employee_name in_experience_level in_company_location in_work_year
       in_remote_ratio in_job_title in_predict_clicked form St.call St.bind
       St.emit St.ret St.try_except page_intro confirmation].
  destruct clicked; [| split; reflexivity ].
  destruct employee_name as [| ch employee_name ]; [ split; reflexivity |].
  cbn [Py.truthy negb].
  destruct (predict model _) as [e | [| usd rest]]; split; reflexivity.
Qed.

Lemma page_events_no_predict page_style ui :
  Trace.predict_calls (page_events page_style ui) = [].
Proof. reflexivity. Qed.

Lemma predict_calls_app t1 t2 :
  Trace.predict_calls (t1 ++ t2) = (Trace.predict_calls t1 ++ Trace.predict_calls t2)%list.
Proof. apply flat_map_app. Qed.

Lemma html_bodies_app t1 t2 :
  Trace.html_bodies (t1 ++ t2) = (Trace.html_bodies t1 ++ Trace.html_bodies t2)%list.
Proof. apply flat_map_app. Qed.

Lemma delays_app t1 t2 :
  Trace.delays (t1 ++ t2) = (Trace.delays t1 ++ Trace.delays t2)%list.
Proof. apply flat_map_app. Qed.

Lemma page_events_html page_style ui :
  Trace.html_bodies (page_events page_style ui) = [page_style].
Proof. reflexivity. Qed.

Lemma page_events_no_delay page_style ui :
  Trace.delays (page_events page_style ui) = [].
Proof. reflexivity. Qed.

(** When loading raises, the run is the error message and [st.stop]. *)
Lemma app_not_loaded page_style load ui e :
  load model_file = inl e ->
  app_py page_style load ui
  = ([ St.set_page_config "Employee Salary Predictor" "💰" "centered";
       St.joblib_load model_file;
       St.error (load_error_message e);
       St.stop ], St.Stopped).
Proof.
  intros Hload. unfold app_py, load_model, St.call_raising. rewrite Hload.
  destruct e; reflexivity.
Qed.

Lemma delay_follows_prediction_sound t :
  Trace.delay_follows_prediction t -> Trace.delay_follows_predictionb t = true.
Proof.
  intros (before & input & after & ->).
  induction before as [| e before IH].
  - reflexivity.
  - cbn [List.app Trace.delay_follows_predictionb].
    rewrite IH.
    destruct e; try reflexivity.
    destruct (before ++ _)%list as [| e' t']; [reflexivity |].
    destruct e'; try reflexivity.
    destruct secs as [| [p | p |] | p]; reflexivity.
Qed.

(** ** The sections of the panel *)

Lemma output_string_sections employee_name experience_level job_title
    company_location work_year remote_ratio usd :
  output_string_of employee_name experience_level job_title company_location
    work_year remote_ratio usd
  = panel_header employee_name
    ++ currency_lines company_location usd
    ++ input_summary experience_level job_title company_location work_year
         remote_ratio
    ++ "</div>".
Proof.
  unfold output_string_of, currency_lines.
  destruct (shows_local (local_currency_info_of company_location));
    rewrite !append_assoc; reflexivity.
Qed.

Lemma inr_line_in_panel ui usd : occurs_in (inr_line usd) (panel_of ui usd).
Proof.
  unfold panel_of. rewrite output_string_sections. unfold currency_lines.
  exists (panel_header (in_employee_name ui) ++ usd_line usd).
  eexists. rewrite !append_assoc. reflexivity.
Qed.

Lemma usd_line_in_panel ui usd : occurs_in (usd_line usd) (panel_of ui usd).
Proof.
  unfold panel_of. rewrite output_string_sections. unfold currency_lines.
  exists (panel_header (in_employee_name ui)).
  eexists. rewrite !append_assoc. reflexivity.
Qed.

Lemma lookup_found code info :
  Py.dict_lookup COUNTRY_CURRENCIES code = Some info ->
  local_currency_info_of code = info.
Proof.
  intros H. unfold local_currency_info_of, Py.dict_get. now rewrite H.
Qed.

Lemma lookup_missing code :
  Py.dict_lookup COUNTRY_CURRENCIES code = None ->
  local_currency_info_of code = default_currency.
Proof.
  intros H. unfold local_currency_info_of, Py.dict_get. now rewrite H.
Qed.

Lemma currency_lines_suppressed code usd :
  shows_local (local_currency_info_of code) = false ->
  currency_lines code usd = usd_line usd ++ inr_line usd.
Proof.
  intros H. unfold currency_lines. rewrite H. now rewrite append_empty_r.
Qed.

(** ** Currency conversion *)

(** Each pair of the table literal is what the lookup returns for its
    key: the table has no key twice. *)
Lemma table_entry_lookup code info :
  In (code, info) COUNTRY_CURRENCIES ->
  Py.dict_lookup COUNTRY_CURRENCIES code = Some info.
Proof.
  intros Hin. unfold COUNTRY_CURRENCIES in Hin. cbn [In] in Hin.
  repeat (destruct Hin as [Hin | Hin];
          [injection Hin as <- <-; reflexivity |]).
  contradiction.
Qed.

(** The panel, with its currency lines written out: the local line is
    there unless the name of the local currency is USD or INR. *)
Lemma panel_written_out employee_name experience_level job_title
    company_location work_year remote_ratio usd :
  output_string_of employee_name experience_level job_title company_location
    work_year remote_ratio usd
  = panel_header employee_name
    ++ ("<br>$" ++ Py.format_comma_2f usd
        ++ "<span class=" ++ Py.dq ++ "currency-text" ++ Py.dq
        ++ "> (USD)</span>")
    ++ ("<br>₹"
        ++ Py.format_comma_2f (Py.fmul usd (Py.float_of_ratio 835 10))
        ++ "<span class=" ++ Py.dq ++ "currency-text" ++ Py.dq
        ++ "> (INR)</span>")
    ++ (if String.eqb (name (local_currency_info_of company_location)) "USD"
           || String.eqb (name (local_currency_info_of company_location))
                         "INR"
        then EmptyString
        else "<br>" ++ symbol (local_currency_info_of company_location)
             ++ Py.format_comma_2f
                  (Py.fmul usd
                     (rate (local_currency_info_of company_location)))
             ++ "<span class=" ++ Py.dq ++ "currency-text" ++ Py.dq ++ "> ("
             ++ name (local_currency_info_of company_location)
             ++ ")</span>")
    ++ input_summary experience_level job_title company_location work_year
         remote_ratio
    ++ "</div>".
Proof.
  rewrite output_string_sections.
  unfold currency_lines, shows_local, predicted_salary_local_of, usd_line,
    inr_line, local_line, currency_span.
  change USD_TO_INR_RATE with (Py.float_of_ratio 835 10).
  destruct (String.eqb (name (local_currency_info_of company_location))
                       "USD");
    destruct (String.eqb (name (local_currency_info_of company_location))
                         "INR");
    cbn [negb andb orb]; rewrite !append_assoc; reflexivity.
Qed.

(** C1: for every pair (code, entry) of the currency table and every
    predicted amount, the local amount is the USD amount times the rate
    of that entry, and the panel of a successful submission shows that
    product on its local line (left out when the currency of the entry is
    USD or INR); for every code, in the table or not, the panel contains
    the INR line, the amount times 83.5. *)
Theorem conversion_uses_table_rate_and_inr_line_always_shown
    model ui usd rest :
  Py.truthy (in_employee_name ui) = true ->
  predict model (input_data_of ui) = inr (usd :: rest) ->
  (forall info,
      In (in_company_location ui, info) COUNTRY_CURRENCIES ->
      predicted_salary_local_of usd (in_company_location ui)
      = Py.fmul usd (rate info)
      /\ panel_of ui usd
         = panel_header (in_employee_name ui)
           ++ ("<br>$" ++ Py.format_comma_2f usd
               ++ "<span class=" ++ Py.dq ++ "currency-text" ++ Py.dq
               ++ "> (USD)</span>")
           ++ ("<br>₹"
               ++ Py.format_comma_2f
                    (Py.fmul usd (Py.float_of_ratio 835 10))
               ++ "<span class=" ++ Py.dq ++ "currency-text" ++ Py.dq
               ++ "> (INR)</span>")
           ++ (if String.eqb (name info) "USD" || String.eqb (name info) "INR"
               then EmptyString
               else "<br>" ++ symbol info
                    ++ Py.format_comma_2f (Py.fmul usd (rate info))
                    ++ "<span class=" ++ Py.dq ++ "currency-text" ++ Py.dq
                    ++ "> (" ++ name info ++ ")</span>")
           ++ input_summary (in_experience_level ui) (in_job_title ui)
                (in_company_location ui) (in_work_year ui)
                (in_remote_ratio ui)
           ++ "</div>")
  /\ Trace.html_bodies (St.trace (handler model ui)) = [panel_of ui usd]
  /\ occurs_in
       ("<br>₹"
        ++ Py.format_comma_2f (Py.fmul usd (Py.float_of_ratio 835 10))
        ++ "<span class=" ++ Py.dq ++ "currency-text" ++ Py.dq
        ++ "> (INR)</span>")
       (panel_of ui usd).
Proof.
  intros Hname Hpred. split; [| split].
  - intros info Hin.
    pose proof (lookup_found _ _ (table_entry_lookup _ _ Hin)) as Hloc.
    split.
    + unfold predicted_salary_local_of. now rewrite Hloc.
    + unfold panel_of. rewrite panel_written_out. now rewrite Hloc.
  - rewrite (handler_success _ _ _ _ Hname Hpred). reflexivity.
  - unfold panel_of. rewrite panel_written_out.
    exists (panel_header (in_employee_name ui)
            ++ "<br>$" ++ Py.format_comma_2f usd
            ++ "<span class=" ++ Py.dq ++ "currency-text" ++ Py.dq
            ++ "> (USD)</span>").
    eexists. rewrite !append_assoc. reflexivity.
Qed.

Lemma conversion_uses_table_rate_witness :
  predicted_salary_local_of usd_100000 "GB"
  = Py.fmul usd_100000 (Py.float_of_ratio 79 100)
  /\ panel_of (sample_ui "Teja" "GB") usd_100000
     = panel_header "Teja"
       ++ ("<br>$100,000.00<span class=" ++ Py.dq ++ "currency-text" ++ Py.dq
           ++ "> (USD)</span>")
       ++ ("<br>₹8,350,000.00<span class=" ++ Py.dq ++ "currency-text"
           ++ Py.dq ++ "> (INR)</span>")
       ++ ("<br>£79,000.00<span class=" ++ Py.dq ++ "currency-text" ++ Py.dq
           ++ "> (GBP)</span>")
       ++ input_summary "Senior" "Data Scientist" "GB" 2024 50
       ++ "</div>"
  /\ Trace.html_bodies
       (St.trace (handler (stub usd_100000) (sample_ui "Teja" "GB")))
     = [panel_of (sample_ui "Teja" "GB") usd_100000]
  /\ occurs_in
       ("<br>₹8,350,000.00<span class=" ++ Py.dq ++ "currency-text" ++ Py.dq
        ++ "> (INR)</span>")
       (panel_of (sample_ui "Teja" "GB") usd_100000).
Proof.
  destruct (conversion_uses_table_rate_and_inr_line_always_shown
              (stub usd_100000) (sample_ui "Teja" "GB") usd_100000 []
              eq_refl eq_refl) as (Hconv & Hbodies & Hinr).
  destruct (Hconv (mkCurrency "£" "GBP" USD_TO_GBP_RATE)
                  (or_intror (or_introl eq_refl))) as [Hrate Hpanel].
  split; [exact Hrate |]. split; [exact Hpanel |].
  split; [exact Hbodies | exact Hinr].
Defined.

(** C2: for the country codes "US" and "IN" no local-currency line is
    added: the panel is its header, the USD line, the INR line, the
    summary of the inputs and the closing tag. *)
Theorem us_and_in_have_no_local_line
    code employee_name experience_level job_title work_year remote_ratio usd :
  code = "US" \/ code = "IN" ->
  shows_local (local_currency_info_of code) = false
  /\ output_string_of employee_name experience_level job_title code
       work_year remote_ratio usd
     = panel_header employee_name
       ++ (usd_line usd ++ inr_line usd)
       ++ input_summary experience_level job_title code work_year remote_ratio
       ++ "</div>".
Proof.
  intros Hcode.
  assert (Hshow : shows_local (local_currency_info_of code) = false)
    by (destruct Hcode as [-> | ->]; reflexivity).
  split; [exact Hshow |].
  rewrite output_string_sections.
  now rewrite (currency_lines_suppressed _ _ Hshow).
Qed.

Lemma us_and_in_have_no_local_line_witness :
  shows_local (local_currency_info_of "IN") = false
  /\ output_string_of "Teja" "Senior" "Data Scientist" "IN" 2024 50 usd_100000
     = panel_header "Teja"
       ++ (usd_line usd_100000 ++ inr_line usd_100000)
       ++ input_summary "Senior" "Data Scientist" "IN" 2024 50
       ++ "</div>".
Proof.
  apply (us_and_in_have_no_local_line "IN" "Teja" "Senior" "Data Scientist"
           2024 50 usd_100000).
  right. reflexivity.
Defined.

(** C3: for a country code that is not a key of the currency table the
    lookup returns the default entry (symbol "$", name "USD", rate 1.0),
    the local amount is the USD amount times 1.0, and the submission is
    rendered without any error. *)
Theorem unmapped_code_falls_back_to_usd model ui usd rest :
  Py.dict_lookup COUNTRY_CURRENCIES (in_company_location ui) = None ->
  Py.truthy (in_employee_name ui) = true ->
  predict model (input_data_of ui) = inr (usd :: rest) ->
  local_currency_info_of (in_company_location ui)
  = mkCurrency "$" "USD" (Py.float_of_Z 1)
  /\ predicted_salary_local_of usd (in_company_location ui)
     = Py.fmul usd (Py.float_of_Z 1)
  /\ handler model ui
     = ([ St.spinner_enter "Calculating salary...";
          St.time_sleep 1;
          St.model_predict (input_data_of ui);
          St.spinner_exit;
          St.markdown (panel_of ui usd) true;
          St.balloons ], St.Normal tt)
  /\ currency_lines (in_company_location ui) usd
     = usd_line usd ++ inr_line usd.
Proof.
  intros Hmiss Hname Hpred.
  pose proof (lookup_missing _ Hmiss) as Hloc.
  repeat split.
  - rewrite Hloc. reflexivity.
  - unfold predicted_salary_local_of. rewrite Hloc. reflexivity.
  - apply (handler_success model ui usd rest); assumption.
  - apply currency_lines_suppressed. rewrite Hloc. reflexivity.
Qed.

Lemma unmapped_code_falls_back_to_usd_witness :
  local_currency_info_of "ZZ" = mkCurrency "$" "USD" (Py.float_of_Z 1)
  /\ predicted_salary_local_of usd_100000 "ZZ"
     = Py.fmul usd_100000 (Py.float_of_Z 1)
  /\ handler (stub usd_100000) (sample_ui "Teja" "ZZ")
     = ([ St.spinner_enter "Calculating salary...";
          St.time_sleep 1;
          St.model_predict (input_data_of (sample_ui "Teja" "ZZ"));
          St.spinner_exit;
          St.markdown (panel_of (sample_ui "Teja" "ZZ") usd_100000) true;
          St.balloons ], St.Normal tt)
  /\ currency_lines "ZZ" usd_100000
     = usd_line usd_100000 ++ inr_line usd_100000.
Proof.
  apply (unmapped_code_falls_back_to_usd
           (stub usd_100000) (sample_ui "Teja" "ZZ") usd_100000 []).
  - reflexivity.
  - reflexivity.
  - reflexivity.
Defined.

(** C4: for the request (Senior, "Data Scientist", "IN", 50, 2024), the
    table rate 83.5 for "IN" and a model that predicts 100000.00, the
    rendered panel is its header, the line "$100,000.00 (USD)", the line
    "₹8,350,000.00 (INR)" and the summary of the inputs, with no further
    currency line. *)
Theorem example_in_request_renders_usd_and_inr
    page_style load model employee_name :
  Py.truthy employee_name = true ->
  load model_file = inr model ->
  predict model (input_data_of (sample_ui employee_name "IN"))
  = inr [usd_100000] ->
  Py.dict_lookup COUNTRY_CURRENCIES "IN"
  = Some (mkCurrency "₹" "INR" (Py.float_of_ratio 835 10))
  /\ Trace.html_bodies
       (St.trace (app_py page_style load (sample_ui employee_name "IN")))
     = [ page_style;
         panel_header employee_name
         ++ ("<br>$100,000.00" ++ currency_span "USD"
             ++ "<br>₹8,350,000.00" ++ currency_span "INR")
         ++ input_summary "Senior" "Data Scientist" "IN" 2024 50
         ++ "</div>" ]
  /\ Html.text_lines
       ("<br>$100,000.00" ++ currency_span "USD"
        ++ "<br>₹8,350,000.00" ++ currency_span "INR")
     = [ EmptyString; "$100,000.00 (USD)"; "₹8,350,000.00 (INR)" ].
Proof.
  intros Hname Hload Hpred. split; [reflexivity | split; [| reflexivity]].
  destruct (app_loaded page_style load (sample_ui employee_name "IN") model
              Hload) as [Htrace _].
  rewrite Htrace.
  change (in_predict_clicked (sample_ui employee_name "IN")) with true.
  rewrite (handler_success model (sample_ui employee_name "IN") usd_100000 []
             Hname Hpred).
  rewrite !html_bodies_app, page_events_html.
  unfold panel_of. rewrite output_string_sections. reflexivity.
Qed.

Lemma example_in_request_witness :
  Py.dict_lookup COUNTRY_CURRENCIES "IN"
  = Some (mkCurrency "₹" "INR" (Py.float_of_ratio 835 10))
  /\ Trace.html_bodies
       (St.trace (app_py sample_style (load_stub usd_100000)
                    (sample_ui "Teja" "IN")))
     = [ sample_style;
         panel_header "Teja"
         ++ ("<br>$100,000.00" ++ currency_span "USD"
             ++ "<br>₹8,350,000.00" ++ currency_span "INR")
         ++ input_summary "Senior" "Data Scientist" "IN" 2024 50
         ++ "</div>" ]
  /\ Html.text_lines
       ("<br>$100,000.00" ++ currency_span "USD"
        ++ "<br>₹8,350,000.00" ++ currency_span "INR")
     = [ EmptyString; "$100,000.00 (USD)"; "₹8,350,000.00 (INR)" ].
Proof.
  apply (example_in_request_renders_usd_and_inr
           sample_style (load_stub usd_100000) (stub usd_100000) "Teja").
  - reflexivity.
  - reflexivity.
  - reflexivity.
Defined.

(** ** Submission *)

(** C5: when the employee name is empty no run of the script calls
    [predict] or renders a prediction panel, and a submission shows the
    warning in place of the prediction. *)
Theorem blank_name_warns_and_skips_prediction page_style load ui :
  in_employee_name ui = EmptyString ->
  Trace.predict_calls (St.trace (app_py page_style load ui)) = []
  /\ (forall body,
         In body (Trace.html_bodies (St.trace (app_py page_style load ui))) ->
         body = page_style)
  /\ (forall model,
         load model_file = inr model ->
         in_predict_clicked ui = true ->
         St.trace (app_py page_style load ui)
         = (page_events page_style ui
            ++ [St.warning "Please enter the Employee Name."]
            ++ St.trace page_footer)%list).
Proof.
  intros Hname.
  assert (Hhandler : forall model,
             handler model ui
             = ([St.warning "Please enter the Employee Name."], St.Normal tt)).
  { intros model. unfold handler. rewrite Hname. reflexivity. }
  destruct (load model_file) as [e | model] eqn:Hload.
  - rewrite (app_not_loaded _ _ _ _ Hload).
    split; [reflexivity | split].
    + intros body [].
    + intros model Hmodel. discriminate.
  - destruct (app_loaded page_style load ui model Hload) as [Htrace _].
    rewrite Htrace, Hhandler.
    split; [| split].
    + rewrite !predict_calls_app, page_events_no_predict.
      destruct (in_predict_clicked ui); reflexivity.
    + rewrite !html_bodies_app, page_events_html.
      destruct (in_predict_clicked ui); cbn; intros body [<- | []];
        reflexivity.
    + intros model' Hmodel Hclicked. rewrite Hclicked. reflexivity.
Qed.

Lemma blank_name_witness :
  Trace.predict_calls
    (St.trace (app_py sample_style (load_stub usd_100000)
                 (sample_ui EmptyString "IN"))) = []
  /\ (forall body,
         In body (Trace.html_bodies
                    (St.trace (app_py sample_style (load_stub usd_100000)
                                 (sample_ui EmptyString "IN")))) ->
         body = sample_style)
  /\ (forall model,
         load_stub usd_100000 model_file = inr model ->
         in_predict_clicked (sample_ui EmptyString "IN") = true ->
         St.trace (app_py sample_style (load_stub usd_100000)
                     (sample_ui EmptyString "IN"))
         = (page_events sample_style (sample_ui EmptyString "IN")
            ++ [St.warning "Please enter the Employee Name."]
            ++ St.trace page_footer)%list).
Proof.
  apply (blank_name_warns_and_skips_prediction
           sample_style (load_stub usd_100000) (sample_ui EmptyString "IN")).
  reflexivity.
Defined.

(** C6: on a submission with a non-empty employee name the script builds
    one feature row under the columns experience_level, job_title,
    company_location, remote_ratio, work_year, in this order, calls
    [predict] on it once, and renders the panel for the first element of
    the returned array as the salary in USD. *)
Theorem named_submission_predicts_on_feature_row page_style load ui model :
  Py.truthy (in_employee_name ui) = true ->
  in_predict_clicked ui = true ->
  load model_file = inr model ->
  Trace.predict_calls (St.trace (app_py page_style load ui))
  = [ mkDataFrame
        [[ inl (in_experience_level ui); inl (in_job_title ui);
           inl (in_company_location ui); inr (in_remote_ratio ui);
           inr (in_work_year ui) ]]
        [ "experience_level"; "job_title"; "company_location";
          "remote_ratio"; "work_year" ] ]
  /\ (forall usd rest,
         predict model (input_data_of ui) = inr (usd :: rest) ->
         Trace.html_bodies (St.trace (app_py page_style load ui))
         = [page_style; panel_of ui usd]
         /\ occurs_in (usd_line usd) (panel_of ui usd)).
Proof.
  intros Hname Hclicked Hload.
  destruct (app_loaded page_style load ui model Hload) as [Htrace _].
  rewrite Htrace, Hclicked. split.
  - rewrite !predict_calls_app, page_events_no_predict,
      (handler_predict_calls _ _ Hname).
    reflexivity.
  - intros usd rest Hpred.
    rewrite (handler_success _ _ _ _ Hname Hpred).
    rewrite !html_bodies_app, page_events_html.
    split; [reflexivity | apply usd_line_in_panel].
Qed.

Lemma named_submission_witness :
  Trace.predict_calls
    (St.trace (app_py sample_style (load_stub usd_100000)
                 (sample_ui "Teja" "IN")))
  = [ mkDataFrame
        [[ inl "Senior"; inl "Data Scientist"; inl "IN"; inr 50%Z;
           inr 2024%Z ]]
        [ "experience_level"; "job_title"; "company_location";
          "remote_ratio"; "work_year" ] ]
  /\ (forall usd rest,
         predict (stub usd_100000) (input_data_of (sample_ui "Teja" "IN"))
         = inr (usd :: rest) ->
         Trace.html_bodies
           (St.trace (app_py sample_style (load_stub usd_100000)
                        (sample_ui "Teja" "IN")))
         = [sample_style; panel_of (sample_ui "Teja" "IN") usd]
         /\ occurs_in (usd_line usd) (panel_of (sample_ui "Teja" "IN") usd)).
Proof.
  apply (named_submission_predicts_on_feature_row
           sample_style (load_stub usd_100000) (sample_ui "Teja" "IN")
           (stub usd_100000)).
  - reflexivity.
  - reflexivity.
  - reflexivity.
Defined.




(** C8, as the code has it: on each successful submission the script
    sleeps for one second and calls [predict] right after the delay; this
    is its only prediction call and its only delay. *)
Theorem prediction_follows_one_second_delay page_style load ui model usd rest :
  Py.truthy (in_employee_name ui) = true ->
  in_predict_clicked ui = true ->
  load model_file = inr model ->
  predict model (input_data_of ui) = inr (usd :: rest) ->
  Trace.predict_calls (St.trace (app_py page_style load ui))
  = [input_data_of ui]
  /\ Trace.delays (St.trace (app_py page_style load ui)) = [1%Z]
  /\ Trace.prediction_follows_delay (St.trace (app_py page_style load ui)).
Proof.
  intros Hname Hclicked Hload Hpred.
  destruct (app_loaded page_style load ui model Hload) as [Htrace _].
  rewrite Htrace, Hclicked, (handler_success _ _ _ _ Hname Hpred).
  split; [| split].
  - rewrite !predict_calls_app, page_events_no_predict. reflexivity.
  - rewrite !delays_app, page_events_no_delay. reflexivity.
  - exists (page_events page_style ui
            ++ [St.spinner_enter "Calculating salary..."])%list.
    exists (input_data_of ui).
    eexists. rewrite <- List.app_assoc. reflexivity.
Qed.

Lemma prediction_follows_delay_witness :
  Trace.predict_calls
    (St.trace (app_py sample_style (load_stub usd_100000)
                 (sample_ui "Teja" "IN")))
  = [input_data_of (sample_ui "Teja" "IN")]
  /\ Trace.delays
       (St.trace (app_py sample_style (load_stub usd_100000)
                    (sample_ui "Teja" "IN"))) = [1%Z]
  /\ Trace.prediction_follows_delay
       (St.trace (app_py sample_style (load_stub usd_100000)
                    (sample_ui "Teja" "IN"))).
Proof.
  apply (prediction_follows_one_second_delay
           sample_style (load_stub usd_100000) (sample_ui "Teja" "IN")
           (stub usd_100000) usd_100000 []).
  - reflexivity.
  - reflexivity.
  - reflexivity.
  - reflexivity.
Defined.

(** C8, as stated, fails: in the successful submission of the sample
    request no prediction call has the one-second delay right after it. *)
Lemma delay_does_not_follow_prediction :
  St.result (app_py sample_style (load_stub usd_100000)
               (sample_ui "Teja" "IN")) = St.Normal tt
  /\ Trace.html_bodies
       (St.trace (app_py sample_style (load_stub usd_100000)
                    (sample_ui "Teja" "IN")))
     = [sample_style; panel_of (sample_ui "Teja" "IN") usd_100000]
  /\ ~ Trace.delay_follows_prediction
         (St.trace (app_py sample_style (load_stub usd_100000)
                      (sample_ui "Teja" "IN"))).
Proof.
  split; [reflexivity | split; [reflexivity |]].
  intros H. apply delay_follows_prediction_sound in H.
  vm_compute in H. discriminate H.
Qed.

(** ** The currency table and the location widget *)

(** C9: every country code that the company-location select widget offers
    is a key of [COUNTRY_CURRENCIES], so the lookup in the handler returns
    the entry of the table and not its default. *)
Theorem offered_locations_are_in_currency_table code :
  In code company_location_options ->
  exists info,
    Py.dict_lookup COUNTRY_CURRENCIES code = Some info
    /\ local_currency_info_of code = info.
Proof.
  intros Hin.
  assert (Hall : forallb
                   (fun c => match Py.dict_lookup COUNTRY_CURRENCIES c with
                             | Some _ => true
                             | None => false
                             end) company_location_options = true)
    by (vm_compute; reflexivity).
  rewrite forallb_forall in Hall. specialize (Hall code Hin).
  destruct (Py.dict_lookup COUNTRY_CURRENCIES code) as [info |] eqn:Hlook;
    [| discriminate].
  exists info. split; [reflexivity | now apply lookup_found].
Qed.

Lemma offered_locations_witness :
  exists info,
    Py.dict_lookup COUNTRY_CURRENCIES "PR" = Some info
    /\ local_currency_info_of "PR" = info.
Proof.
  apply (offered_locations_are_in_currency_table "PR").
  vm_compute. do 36 right. left. reflexivity.
Defined.

(** C10: whether the local line is shown is decided by the name of the
    local currency, not by the country code nor by the symbol: for every
    code the local line is left out exactly when that name is USD or INR.
    So "MX", whose symbol is the dollar sign but whose currency is MXN,
    has its local line, while "PR", whose entry is the currency USD at
    rate 1.0, has none, as "US" has none: for the same predicted amount
    the currency lines of "PR" are those of "US", the USD line and the INR
    line. *)
Theorem pr_is_rendered_as_us usd :
  Py.dict_lookup COUNTRY_CURRENCIES "PR"
  = Some (mkCurrency "$" "USD" (Py.float_of_Z 1))
  /\ (forall code employee_name experience_level job_title work_year
             remote_ratio,
         output_string_of employee_name experience_level job_title code
           work_year remote_ratio usd
         = panel_header employee_name
           ++ ("<br>$" ++ Py.format_comma_2f usd
               ++ "<span class=" ++ Py.dq ++ "currency-text" ++ Py.dq
               ++ "> (USD)</span>")
           ++ ("<br>₹"
               ++ Py.format_comma_2f
                    (Py.fmul usd (Py.float_of_ratio 835 10))
               ++ "<span class=" ++ Py.dq ++ "currency-text" ++ Py.dq
               ++ "> (INR)</span>")
           ++ (if String.eqb (name (local_currency_info_of code)) "USD"
                  || String.eqb (name (local_currency_info_of code)) "INR"
               then EmptyString
               else "<br>" ++ symbol (local_currency_info_of code)
                    ++ Py.format_comma_2f
                         (Py.fmul usd (rate (local_currency_info_of code)))
                    ++ "<span class=" ++ Py.dq ++ "currency-text" ++ Py.dq
                    ++ "> (" ++ name (local_currency_info_of code)
                    ++ ")</span>")
           ++ input_summary experience_level job_title code work_year
                remote_ratio
           ++ "</div>")
  /\ (forall employee_name experience_level job_title work_year remote_ratio,
         output_string_of employee_name experience_level job_title "MX"
           work_year remote_ratio usd
         = panel_header employee_name
           ++ ("<br>$" ++ Py.format_comma_2f usd
               ++ "<span class=" ++ Py.dq ++ "currency-text" ++ Py.dq
               ++ "> (USD)</span>")
           ++ ("<br>₹"
               ++ Py.format_comma_2f
                    (Py.fmul usd (Py.float_of_ratio 835 10))
               ++ "<span class=" ++ Py.dq ++ "currency-text" ++ Py.dq
               ++ "> (INR)</span>")
           ++ ("<br>$"
               ++ Py.format_comma_2f (Py.fmul usd (Py.float_of_ratio 180 10))
               ++ "<span class=" ++ Py.dq ++ "currency-text" ++ Py.dq
               ++ "> (MXN)</span>")
           ++ input_summary experience_level job_title "MX" work_year
                remote_ratio
           ++ "</div>")
  /\ (forall employee_name experience_level job_title work_year remote_ratio,
         output_string_of employee_name experience_level job_title "PR"
           work_year remote_ratio usd
         = panel_header employee_name
           ++ ("<br>$" ++ Py.format_comma_2f usd
               ++ "<span class=" ++ Py.dq ++ "currency-text" ++ Py.dq
               ++ "> (USD)</span>")
           ++ ("<br>₹"
               ++ Py.format_comma_2f
                    (Py.fmul usd (Py.float_of_ratio 835 10))
               ++ "<span class=" ++ Py.dq ++ "currency-text" ++ Py.dq
               ++ "> (INR)</span>")
           ++ input_summary experience_level job_title "PR" work_year
                remote_ratio
           ++ "</div>")
  /\ (forall employee_name experience_level job_title work_year remote_ratio,
         output_string_of employee_name experience_level job_title "US"
           work_year remote_ratio usd
         = panel_header employee_name
           ++ ("<br>$" ++ Py.format_comma_2f usd
               ++ "<span class=" ++ Py.dq ++ "currency-text" ++ Py.dq
               ++ "> (USD)</span>")
           ++ ("<br>₹"
               ++ Py.format_comma_2f
                    (Py.fmul usd (Py.float_of_ratio 835 10))
               ++ "<span class=" ++ Py.dq ++ "currency-text" ++ Py.dq
               ++ "> (INR)</span>")
           ++ input_summary experience_level job_title "US" work_year
                remote_ratio
           ++ "</div>")
  /\ shows_local (local_currency_info_of "PR") = false
  /\ shows_local (local_currency_info_of "US") = false
  /\ currency_lines "PR" usd = currency_lines "US" usd
  /\ currency_lines "PR" usd = usd_line usd ++ inr_line usd.
Proof.
  assert (Hpr : shows_local (local_currency_info_of "PR") = false)
    by reflexivity.
  assert (Hus : shows_local (local_currency_info_of "US") = false)
    by reflexivity.
  split; [reflexivity |].
  split; [intros; apply panel_written_out |].
  split; [intros; rewrite panel_written_out; reflexivity |].
  split; [intros; rewrite panel_written_out; reflexivity |].
  split; [intros; rewrite panel_written_out; reflexivity |].
  split; [exact Hpr |]. split; [exact Hus |].
  split.
  - now rewrite (currency_lines_suppressed _ _ Hpr),
      (currency_lines_suppressed _ _ Hus).
  - exact (currency_lines_suppressed _ _ Hpr).
Qed.

(** * Further properties of the script *)

(** ** The handler, case by case *)

Lemma handler_failure_raised model ui e :
  Py.truthy (in_employee_name ui) = true ->
  predict model (input_data_of ui) = inl e ->
  handler model ui = (prediction_failed_events ui e, St.Normal tt).
Proof.
  intros Hname Hpred. unfold handler, on_predict, input_data_of in *.
  rewrite Hname. cbn [negb]. unfold St.call_raising. rewrite Hpred.
  reflexivity.
Qed.

Lemma handler_failure_empty model ui :
  Py.truthy (in_employee_name ui) = true ->
  predict model (input_data_of ui) = inr [] ->
  handler model ui
  = (prediction_failed_events ui
       (Py.IndexError "index 0 is out of bounds for axis 0 with size 0"),
     St.Normal tt).
Proof.
  intros Hname Hpred. unfold handler, on_predict, input_data_of in *.
  rewrite Hname. cbn [negb]. unfold St.call_raising. rewrite Hpred.
  reflexivity.
Qed.

Lemma handler_blank model ui :
  Py.truthy (in_employee_name ui) = false ->
  handler model ui
  = ([St.warning "Please enter the Employee Name."], St.Normal tt).
Proof.
  intros Hname. unfold handler, on_predict. rewrite Hname. reflexivity.
Qed.

(** Whatever the handler does, it has at most one prediction call, on the
    feature row, with one one-second delay for it. *)
Lemma handler_calls_and_delays model ui :
  (Trace.predict_calls (St.trace (handler model ui)) = []
   \/ Trace.predict_calls (St.trace (handler model ui)) = [input_data_of ui])
  /\ Trace.delays (St.trace (handler model ui))
     = map (fun _ => 1%Z) (Trace.predict_calls (St.trace (handler model ui))).
Proof.
  destruct (Py.truthy (in_employee_name ui)) eqn:Hname.
  - destruct (predict model (input_data_of ui)) as [e | [| usd rest]] eqn:Hpred.
    + rewrite (handler_failure_raised _ _ _ Hname Hpred).
      split; [right |]; reflexivity.
    + rewrite (handler_failure_empty _ _ Hname Hpred).
      split; [right |]; reflexivity.
    + rewrite (handler_success _ _ _ _ Hname Hpred).
      split; [right |]; reflexivity.
  - rewrite (handler_blank _ _ Hname). split; [left |]; reflexivity.
Qed.

(** X1: when [predict] raises on a submission with a name, the run shows
    the exception text in an error and then a warning, renders no
    prediction panel, and goes on to the footer and ends normally. *)
Theorem prediction_exception_is_reported page_style load ui model e :
  Py.truthy (in_employee_name ui) = true ->
  in_predict_clicked ui = true ->
  load model_file = inr model ->
  predict model (input_data_of ui) = inl e ->
  St.trace (app_py page_style load ui)
  = (page_events page_style ui
     ++ [ St.spinner_enter "Calculating salary...";
          St.time_sleep 1;
          St.model_predict (input_data_of ui);
          St.spinner_exit;
          St.error ("An error occurred during prediction: "
                    ++ Py.str_of_exn e);
          St.warning "Please check your input values and ensure the model is correctly trained for these features." ]
     ++ St.trace page_footer)%list
  /\ St.result (app_py page_style load ui) = St.Normal tt
  /\ Trace.html_bodies (St.trace (app_py page_style load ui)) = [page_style]
  /\ ~ In St.balloons (St.trace (app_py page_style load ui)).
Proof.
  intros Hname Hclicked Hload Hpred.
  destruct (app_loaded page_style load ui model Hload) as [Htrace Hres].
  rewrite Htrace, Hclicked, (handler_failure_raised _ _ _ Hname Hpred).
  split; [reflexivity | split; [exact Hres | split]].
  - rewrite !html_bodies_app, page_events_html. reflexivity.
  - intros Hin. apply in_app_or in Hin. destruct Hin as [Hin | Hin].
    + unfold page_events in Hin. cbn in Hin.
      repeat (destruct Hin as [Hin | Hin]; [discriminate Hin |]).
      exact Hin.
    + cbn in Hin.
      repeat (destruct Hin as [Hin | Hin]; [discriminate Hin |]).
      exact Hin.
Qed.

Lemma prediction_exception_witness :
  St.trace (app_py sample_style
              (fun _ => inr (stub_raising (Py.OtherException "bad row")))
              (sample_ui "Teja" "IN"))
  = (page_events sample_style (sample_ui "Teja" "IN")
     ++ [ St.spinner_enter "Calculating salary...";
          St.time_sleep 1;
          St.model_predict (input_data_of (sample_ui "Teja" "IN"));
          St.spinner_exit;
          St.error ("An error occurred during prediction: "
                    ++ Py.str_of_exn (Py.OtherException "bad row"));
          St.warning "Please check your input values and ensure the model is correctly trained for these features." ]
     ++ St.trace page_footer)%list
  /\ St.result (app_py sample_style
                  (fun _ => inr (stub_raising (Py.OtherException "bad row")))
                  (sample_ui "Teja" "IN")) = St.Normal tt
  /\ Trace.html_bodies
       (St.trace (app_py sample_style
                    (fun _ => inr (stub_raising (Py.OtherException "bad row")))
                    (sample_ui "Teja" "IN"))) = [sample_style]
  /\ ~ In St.balloons
         (St.trace (app_py sample_style
                      (fun _ => inr (stub_raising (Py.OtherException "bad row")))
                      (sample_ui "Teja" "IN"))).
Proof.
  apply (prediction_exception_is_reported sample_style
           (fun _ => inr (stub_raising (Py.OtherException "bad row")))
           (sample_ui "Teja" "IN")
           (stub_raising (Py.OtherException "bad row"))
           (Py.OtherException "bad row")); reflexivity.
Defined.

(** X2: when [predict] returns an empty array, taking element 0 raises
    inside the [try]; the run reports the index error like any other
    prediction failure and renders no panel. *)
Theorem empty_prediction_is_reported page_style load ui model :
  Py.truthy (in_employee_name ui) = true ->
  in_predict_clicked ui = true ->
  load model_file = inr model ->
  predict model (input_data_of ui) = inr [] ->
  (exists e,
      Py.getitem0 (@nil Py.float) = inl e
      /\ St.trace (app_py page_style load ui)
         = (page_events page_style ui
            ++ prediction_failed_events ui e
            ++ St.trace page_footer)%list)
  /\ St.result (app_py page_style load ui) = St.Normal tt
  /\ Trace.html_bodies (St.trace (app_py page_style load ui)) = [page_style].
Proof.
  intros Hname Hclicked Hload Hpred.
  destruct (app_loaded page_style load ui model Hload) as [Htrace Hres].
  rewrite Htrace, Hclicked, (handler_failure_empty _ _ Hname Hpred).
  split; [| split; [exact Hres |]].
  - eexists. split; reflexivity.
  - rewrite !html_bodies_app, page_events_html. reflexivity.
Qed.

Lemma empty_prediction_witness :
  (exists e,
      Py.getitem0 (@nil Py.float) = inl e
      /\ St.trace (app_py sample_style (fun _ => inr stub_empty)
                     (sample_ui "Teja" "IN"))
         = (page_events sample_style (sample_ui "Teja" "IN")
            ++ prediction_failed_events (sample_ui "Teja" "IN") e
            ++ St.trace page_footer)%list)
  /\ St.result (app_py sample_style (fun _ => inr stub_empty)
                  (sample_ui "Teja" "IN")) = St.Normal tt
  /\ Trace.html_bodies
       (St.trace (app_py sample_style (fun _ => inr stub_empty)
                    (sample_ui "Teja" "IN"))) = [sample_style].
Proof.
  apply (empty_prediction_is_reported sample_style (fun _ => inr stub_empty)
           (sample_ui "Teja" "IN") stub_empty); reflexivity.
Defined.

(** X3: a run in which the button was not clicked renders the page and the
    footer only: no warning about the name, no delay, no prediction,
    whatever the name field holds. *)
Theorem without_click_nothing_is_predicted page_style load ui model :
  in_predict_clicked ui = false ->
  load model_file = inr model ->
  St.trace (app_py page_style load ui)
  = (page_events page_style ui ++ St.trace page_footer)%list
  /\ Trace.predict_calls (St.trace (app_py page_style load ui)) = []
  /\ Trace.delays (St.trace (app_py page_style load ui)) = []
  /\ Trace.html_bodies (St.trace (app_py page_style load ui)) = [page_style].
Proof.
  intros Hclicked Hload.
  destruct (app_loaded page_style load ui model Hload) as [Htrace _].
  rewrite Htrace, Hclicked. cbn [List.app].
  split; [reflexivity | split; [| split]].
  - rewrite predict_calls_app, page_events_no_predict. reflexivity.
  - rewrite delays_app, page_events_no_delay. reflexivity.
  - rewrite html_bodies_app, page_events_html. reflexivity.
Qed.

Lemma without_click_witness :
  St.trace (app_py sample_style (load_stub usd_100000)
              (mkInputs EmptyString "Senior" "IN" 2024 50 "Data Scientist"
                        false))
  = (page_events sample_style
       (mkInputs EmptyString "Senior" "IN" 2024 50 "Data Scientist" false)
     ++ St.trace page_footer)%list
  /\ Trace.predict_calls
       (St.trace (app_py sample_style (load_stub usd_100000)
                    (mkInputs EmptyString "Senior" "IN" 2024 50
                              "Data Scientist" false))) = []
  /\ Trace.delays
       (St.trace (app_py sample_style (load_stub usd_100000)
                    (mkInputs EmptyString "Senior" "IN" 2024 50
                              "Data Scientist" false))) = []
  /\ Trace.html_bodies
       (St.trace (app_py sample_style (load_stub usd_100000)
                    (mkInputs EmptyString "Senior" "IN" 2024 50
                              "Data Scientist" false))) = [sample_style].
Proof.
  apply (without_click_nothing_is_predicted sample_style
           (load_stub usd_100000)
           (mkInputs EmptyString "Senior" "IN" 2024 50 "Data Scientist" false)
           (stub usd_100000)); reflexivity.
Defined.

(** X4: no run of the script ends with an uncaught exception: it is
    stopped when the model does not load, and otherwise ends normally with
    the footer as its last output, whatever [predict] does. *)
Theorem run_never_ends_with_exception page_style load ui :
  match load model_file with
  | inl _ => St.result (app_py page_style load ui) = St.Stopped
  | inr _ =>
      St.result (app_py page_style load ui) = St.Normal tt
      /\ exists before,
           St.trace (app_py page_style load ui)
           = (before ++ St.trace page_footer)%list
  end.
Proof.
  destruct (load model_file) as [e | model] eqn:Hload.
  - now rewrite (app_not_loaded _ _ _ _ Hload).
  - destruct (app_loaded page_style load ui model Hload) as [Htrace Hres].
    split; [exact Hres |].
    rewrite Htrace, List.app_assoc. eexists. reflexivity.
Qed.

(** X5: in every run, successful or not, there is at most one prediction
    call, it is on the feature row of the inputs, and the script sleeps
    one second exactly once for each prediction call, so the delay is paid
    also when the prediction then fails. *)
Theorem at_most_one_prediction_each_with_delay page_style load ui :
  (Trace.predict_calls (St.trace (app_py page_style load ui)) = []
   \/ Trace.predict_calls (St.trace (app_py page_style load ui))
      = [input_data_of ui])
  /\ Trace.delays (St.trace (app_py page_style load ui))
     = map (fun _ => 1%Z)
         (Trace.predict_calls (St.trace (app_py page_style load ui))).
Proof.
  destruct (load model_file) as [e | model] eqn:Hload.
  - rewrite (app_not_loaded _ _ _ _ Hload). split; [left |]; reflexivity.
  - destruct (app_loaded page_style load ui model Hload) as [Htrace _].
    rewrite Htrace.
    rewrite !predict_calls_app, !delays_app, page_events_no_predict,
      page_events_no_delay.
    destruct (in_predict_clicked ui).
    + destruct (handler_calls_and_delays model ui) as [[Hc | Hc] Hd];
        rewrite Hd, Hc; split; [left | | right |]; reflexivity.
    + split; [left |]; reflexivity.
Qed.

(** ** The currency table against the widget *)

Lemma dict_lookup_in {V} (d : list (string * V)) k v :
  Py.dict_lookup d k = Some v -> In (k, v) d.
Proof.
  induction d as [| [k' v'] d IH]; cbn [Py.dict_lookup]; [discriminate |].
  destruct (String.eqb_spec k' k) as [-> | Hne].
  - intros [= ->]. now left.
  - intros H. right. now apply IH.
Qed.

Lemma dict_lookup_key {V} (d : list (string * V)) k :
  Py.dict_lookup d k <> None <-> In k (map fst d).
Proof.
  induction d as [| [k' v'] d IH]; cbn [Py.dict_lookup map fst In].
  - split; [congruence | tauto].
  - destruct (String.eqb_spec k' k) as [-> | Hne].
    + split; [now left | congruence].
    + rewrite IH. split; [now right | intros [H | H]; [contradiction | exact H]].
Qed.

Lemma contains_in l x : Py.contains l x = true <-> In x l.
Proof.
  unfold Py.contains. rewrite existsb_exists. split.
  - intros (y & Hy & Heq). apply String.eqb_eq in Heq. now subst.
  - intros H. exists x. split; [exact H | apply String.eqb_refl].
Qed.

(** X6: the company-location widget offers exactly the keys of the
    currency table: a code is among its options if and only if the lookup
    finds an entry for it. *)
Theorem offered_locations_are_exactly_the_table_keys code :
  In code company_location_options
  <-> Py.dict_lookup COUNTRY_CURRENCIES code <> None.
Proof.
  rewrite dict_lookup_key. split; intros Hin.
  - assert (Hall : forallb (Py.contains (map fst COUNTRY_CURRENCIES))
                     company_location_options = true)
      by (vm_compute; reflexivity).
    rewrite forallb_forall in Hall. now apply contains_in, Hall.
  - assert (Hall : forallb (Py.contains company_location_options)
                     (map fst COUNTRY_CURRENCIES) = true)
      by (vm_compute; reflexivity).
    rewrite forallb_forall in Hall. now apply contains_in, Hall.
Qed.

Lemma suppressed_entries code info :
  Py.dict_lookup COUNTRY_CURRENCIES code = Some info ->
  shows_local info = false ->
  (code = "US" /\ info = default_currency)
  \/ (code = "PR" /\ info = default_currency)
  \/ (code = "IN" /\ info = mkCurrency "₹" "INR" USD_TO_INR_RATE).
Proof.
  intros Hlook Hshow. apply dict_lookup_in in Hlook.
  unfold COUNTRY_CURRENCIES in Hlook. cbn [In] in Hlook.
  repeat (destruct Hlook as [Hlook | Hlook];
          [ injection Hlook as <- <-;
            first [ discriminate Hshow
                  | left; split; reflexivity
                  | right; left; split; reflexivity
                  | right; right; split; reflexivity ] |]).
  contradiction.
Qed.

(** X7: among the codes of the currency table the local line is left out
    for "US", "IN" and "PR" and for no other code. *)
Theorem local_line_is_left_out_for_three_codes code info :
  Py.dict_lookup COUNTRY_CURRENCIES code = Some info ->
  (shows_local info = false <-> code = "US" \/ code = "IN" \/ code = "PR").
Proof.
  intros Hlook. split.
  - intros Hshow.
    destruct (suppressed_entries _ _ Hlook Hshow)
      as [[-> _] | [[-> _] | [-> _]]]; tauto.
  - intros [-> | [-> | ->]]; vm_compute in Hlook;
      injection Hlook as <-; reflexivity.
Qed.

Lemma local_line_three_codes_witness :
  shows_local (mkCurrency "£" "GBP" USD_TO_GBP_RATE) = false
  <-> "GB" = "US" \/ "GB" = "IN" \/ "GB" = "PR".
Proof.
  apply (local_line_is_left_out_for_three_codes "GB").
  reflexivity.
Defined.

(** ** The option lists *)

Lemma insert_sorted_perm x l : Permutation (x :: l) (Py.insert_sorted x l).
Proof.
  induction l as [| y l IH]; cbn [Py.insert_sorted]; [reflexivity |].
  destruct (String.leb x y); [reflexivity |].
  rewrite perm_swap. now apply perm_skip.
Qed.

Lemma insert_sorted_hd a x l :
  leb_str a x -> HdRel leb_str a l -> HdRel leb_str a (Py.insert_sorted x l).
Proof.
  intros Hax Hal. destruct l as [| y l]; cbn [Py.insert_sorted].
  - now constructor.
  - destruct (String.leb x y); constructor; [exact Hax |].
    now inversion Hal.
Qed.

Lemma insert_sorted_sorted x l :
  Sorted leb_str l -> Sorted leb_str (Py.insert_sorted x l).
Proof.
  induction 1 as [| y l Hs IH Hhd]; cbn [Py.insert_sorted].
  - repeat constructor.
  - destruct (String.leb x y) eqn:Hxy.
    + constructor; [now constructor | now constructor].
    + constructor; [exact IH |].
      apply insert_sorted_hd; [| exact Hhd].
      destruct (String.leb_total x y) as [H | H]; [congruence | exact H].
Qed.

(** X8: [sorted] returns its argument rearranged in ascending order: the
    options of the location and job-title widgets are the listed entries,
    each as often as listed, in ascending order. *)
Theorem sorted_options_are_ordered_rearrangement l :
  Sorted leb_str (Py.sorted l) /\ Permutation l (Py.sorted l).
Proof.
  unfold Py.sorted. induction l as [| x l [IHs IHp]]; cbn [fold_right].
  - split; constructor.
  - split.
    + now apply insert_sorted_sorted.
    + rewrite <- insert_sorted_perm. now apply perm_skip.
Qed.

(** X9: for a list that holds [x], [index] is the position of the first
    occurrence of [x]; so the location widget, whose default index is that
    of "IN" when "IN" is offered, starts on "IN". *)
Theorem index_is_first_occurrence l x :
  Py.contains l x = true ->
  nth_error l (Py.index l x) = Some x
  /\ forall j, (j < Py.index l x)%nat -> nth_error l j <> Some x.
Proof.
  rewrite contains_in.
  induction l as [| y l IH]; cbn [In Py.index]; [tauto |].
  intros Hin. destruct (String.eqb_spec y x) as [-> | Hne].
  - split; [reflexivity | intros j Hj; inversion Hj].
  - destruct Hin as [Heq | Hin]; [contradiction |].
    destruct (IH Hin) as [Hnth Hfirst]. split; [exact Hnth |].
    intros [| j] Hj; cbn [nth_error].
    + congruence.
    + apply Hfirst. now apply PeanoNat.lt_S_n.
Qed.

Lemma index_of_default_location_witness :
  nth_error company_location_options
    (Py.index company_location_options "IN") = Some "IN"
  /\ forall j, (j < Py.index company_location_options "IN")%nat ->
               nth_error company_location_options j <> Some "IN".
Proof.
  apply (index_is_first_occurrence company_location_options "IN").
  reflexivity.
Defined.

(** ** Conversion at rate 1.0 *)

Lemma digits_times_2_52 m :
  Zpos (digits2_pos (Pos.mul m 4503599627370496))
  = (Zpos (digits2_pos m) + 52)%Z.
Proof.
  rewrite Pos.mul_comm. cbn [Pos.mul digits2_pos].
  rewrite !Pos2Z.inj_succ. lia.
Qed.

Lemma shr_times_2_52 m :
  iter_pos shr_1 52
    (Build_shr_record (Zpos (Pos.mul m 4503599627370496)) false false)
  = Build_shr_record (Zpos m) false false.
Proof. rewrite Pos.mul_comm. reflexivity. Qed.

(** Multiplying a binary64 value by 1.0 returns it. *)
Lemma fmul_one x :
  valid_float x = true -> Py.fmul x (Py.float_of_ratio 10 10) = x.
Proof.
  change (Py.float_of_ratio 10 10)
    with (S754_finite false 4503599627370496 (-52)).
  unfold valid_float, Py.fmul.
  destruct x as [s | s | | s m e]; intros Hv; cbn [SFmul xorb].
  - now destruct s.
  - now destruct s.
  - reflexivity.
  - cbn [valid_binary] in Hv. unfold bounded, canonical_mantissa in Hv.
    apply andb_prop in Hv. destruct Hv as [Hc Hb].
    apply Z.eqb_eq in Hc.
    replace (xorb s false) with s by now destruct s.
    unfold binary_round_aux, shr_fexp.
    cbn [Zdigits2]. rewrite digits_times_2_52.
    replace (Z.pos (digits2_pos m) + 52 + (e + -52))%Z
      with (Z.pos (digits2_pos m) + e)%Z by lia.
    rewrite Hc.
    replace (e - (e + -52))%Z with 52%Z by lia.
    cbn [shr shr_record_of_loc]. rewrite shr_times_2_52.
    cbn [shr_m loc_of_shr_record round_nearest_even Zdigits2].
    replace (e + -52 + 52)%Z with e by lia.
    rewrite Hc, Z.sub_diag. cbn [shr shr_record_of_loc shr_m].
    now rewrite Hb.
Qed.

(** X10: for a binary64 prediction and a company location whose rate is
    1.0, that is "US", "PR" or a code the table does not have, the local
    amount computed by the handler is the predicted USD amount itself. *)
Theorem rate_one_keeps_the_amount usd code :
  valid_float usd = true ->
  code = "US" \/ code = "PR"
  \/ Py.dict_lookup COUNTRY_CURRENCIES code = None ->
  predicted_salary_local_of usd code = usd.
Proof.
  intros Hv Hcode. unfold predicted_salary_local_of.
  assert (Hinfo : local_currency_info_of code = default_currency).
  { destruct Hcode as [-> | [-> | Hmiss]];
      [reflexivity | reflexivity | now apply lookup_missing]. }
  rewrite Hinfo. now apply fmul_one.
Qed.

Lemma rate_one_witness :
  predicted_salary_local_of usd_100000 "PR" = usd_100000.
Proof.
  apply (rate_one_keeps_the_amount usd_100000 "PR").
  - reflexivity.
  - right. left. reflexivity.
Defined.

(** X11: leaving the local line out loses nothing: whenever the handler
    leaves it out for a binary64 prediction, the line it would have added
    is the USD line or the INR line that the panel already has. *)
Theorem left_out_local_line_is_already_shown usd code :
  valid_float usd = true ->
  shows_local (local_currency_info_of code) = false ->
  local_line (local_currency_info_of code)
             (predicted_salary_local_of usd code) = usd_line usd
  \/ local_line (local_currency_info_of code)
                (predicted_salary_local_of usd code) = inr_line usd.
Proof.
  intros Hv Hshow. unfold predicted_salary_local_of.
  destruct (Py.dict_lookup COUNTRY_CURRENCIES code) as [info |] eqn:Hlook.
  - rewrite (lookup_found _ _ Hlook) in *.
    destruct (suppressed_entries _ _ Hlook Hshow)
      as [[_ ->] | [[_ ->] | [_ ->]]].
    + left. cbn [rate default_currency]. rewrite (fmul_one _ Hv).
      reflexivity.
    + left. cbn [rate default_currency]. rewrite (fmul_one _ Hv).
      reflexivity.
    + right. reflexivity.
  - rewrite (lookup_missing _ Hlook).
    left. cbn [rate default_currency]. rewrite (fmul_one _ Hv). reflexivity.
Qed.

Lemma left_out_local_line_witness :
  local_line (local_currency_info_of "IN")
             (predicted_salary_local_of usd_100000 "IN") = usd_line usd_100000
  \/ local_line (local_currency_info_of "IN")
                (predicted_salary_local_of usd_100000 "IN")
     = inr_line usd_100000.
Proof.
  apply (left_out_local_line_is_already_shown usd_100000 "IN");
    reflexivity.
Defined.

(** ** The format [,.2f] *)

Lemma remove_commas_append a b :
  remove_commas (a ++ b) = remove_commas a ++ remove_commas b.
Proof.
  induction a as [| c a IH]; cbn [String.append remove_commas];
    [reflexivity |].
  destruct (Ascii.eqb c ","); cbn [String.append]; now rewrite IH.
Qed.

(** X12: grouping by thousands only adds commas: with the commas taken
    out again the digits of the amount are as they were. *)
Theorem grouping_only_adds_commas digits :
  remove_commas (Py.group_thousands digits) = remove_commas digits.
Proof.
  induction digits as [| c rest IH]; [reflexivity |].
  cbn [Py.group_thousands remove_commas].
  assert (Hrest :
            remove_commas
              (if (0 <? length rest)%nat && (length rest mod 3 =? 0)%nat
               then "," ++ Py.group_thousands rest
               else Py.group_thousands rest)
            = remove_commas rest).
  { destruct ((0 <? length rest)%nat && (length rest mod 3 =? 0)%nat);
      [rewrite remove_commas_append |]; exact IH. }
  destruct (Ascii.eqb c ","); now rewrite Hrest.
Qed.

(** A quotient rounded half to even is a nearest integer to it, and on a
    tie the even one. *)
Lemma rounding_is_to_nearest_even num den :
  let h := Py.round_half_even num den in
  (2 * h * Npos den <= 2 * num + Npos den)%N
  /\ (2 * num <= 2 * h * Npos den + Npos den)%N
  /\ ((2 * h * Npos den = 2 * num + Npos den
       \/ 2 * num = 2 * h * Npos den + Npos den)%N ->
      N.even h = true).
Proof.
  unfold Py.round_half_even.
  pose proof (N.div_mod num (Npos den) ltac:(discriminate)) as Hdm.
  pose proof (N.mod_lt num (Npos den) ltac:(discriminate)) as Hlt.
  set (q := (num / Npos den)%N) in *.
  set (r := (num mod Npos den)%N) in *.
  set (d := Npos den) in *.
  clearbody q r d. subst num.
  destruct (2 * r ?= d)%N eqn:Hcmp.
  - apply N.compare_eq_iff in Hcmp.
    destruct (N.even q) eqn:Hev.
    + repeat split; [nia | nia | intros _; exact Hev].
    + repeat split; [nia | nia |].
      intros _. rewrite N.add_1_r, N.even_succ, <- N.negb_even, Hev.
      reflexivity.
  - assert (Hlt2 : (2 * r < d)%N) by exact Hcmp.
    repeat split; [nia | nia | intros [H | H]; nia].
  - assert (Hgt2 : (d < 2 * r)%N) by now apply N.compare_gt_iff.
    repeat split; [nia | nia | intros [H | H]; nia].
Qed.

(** X13: the formats [,.2f] and [.2f] print a finite amount [m * 2^e]
    as its sign, the whole part and the last two digits of a number [h]
    of hundredths, and [h] is an integer nearest to [100 * m * 2^e], the
    even one on a tie: with [100 * m * 2^e = num / den], twice the
    distance from [h * den] to [num] is at most [den]. *)
Theorem printed_amount_is_nearest_hundredth s m e :
  let h := Py.hundredths m e in
  let num := (Zpos m * 100 * 2 ^ Z.max e 0)%Z in
  let den := (2 ^ Z.max (- e) 0)%Z in
  Py.format_comma_2f (S754_finite s m e)
  = Py.sign_str s ++ Py.group_thousands (Py.str_of_N (h / 100)) ++ "."
    ++ Py.two_digits (h mod 100)
  /\ format_2f (S754_finite s m e)
     = Py.sign_str s ++ Py.str_of_N (h / 100) ++ "."
       ++ Py.two_digits (h mod 100)
  /\ (2 * Z.of_N h * den <= 2 * num + den)%Z
  /\ (2 * num <= 2 * Z.of_N h * den + den)%Z
  /\ ((2 * Z.of_N h * den = 2 * num + den
       \/ 2 * num = 2 * Z.of_N h * den + den)%Z ->
      N.even h = true).
Proof.
  cbv zeta. split; [reflexivity | split; [reflexivity |]].
  destruct e as [| p | p]; cbn [Py.hundredths Z.max Z.opp Z.compare].
  - change (2 ^ 0)%Z with 1%Z. rewrite N2Z.inj_mul. cbn [Z.of_N].
    repeat split; [lia | lia | intros [H | H]; lia].
  - change (2 ^ 0)%Z with 1%Z.
    rewrite !N2Z.inj_mul, N2Z.inj_pow. cbn [Z.of_N].
    repeat split; [lia | lia | intros [H | H]; lia].
  - change (2 ^ 0)%Z with 1%Z.
    destruct (rounding_is_to_nearest_even (Npos m * 100) (2 ^ p)%positive)
      as (Hle & Hge & Htie).
    change 2%Z with (Z.pos 2) at 2 6 10 13 16.
    rewrite <- Pos2Z.inj_pow.
    set (h := Py.round_half_even (N.pos m * 100) (2 ^ p)) in *.
    set (d := (2 ^ p)%positive) in *.
    repeat split; [lia | lia |].
    intros H. apply Htie. lia.
Qed.

(** * Properties of the training script *)

Lemma train_not_loaded env e :
  Train.read_csv env data_file = inl e ->
  train_model_py env
  = match e with
    | Py.FileNotFoundError _ =>
        ([ Train.ev_read_csv "ds_salaries.csv";
           Train.ev_print "Error: 'ds_salaries.csv' not found. Please make sure the CSV file is in the same directory as this script.";
           Train.ev_exit ], Train.Exited)
    | _ => ([Train.ev_read_csv "ds_salaries.csv"], Train.Raised e)
    end.
Proof.
  intros Hread. unfold train_model_py, load_dataset, Train.call.
  rewrite Hread. destruct e; reflexivity.
Qed.

Lemma train_no_target env df :
  Train.read_csv env data_file = inr df ->
  Py.contains (Train.fr_columns df) target = false ->
  train_model_py env
  = (loaded_events df, Train.Raised (Py.OtherException "['salary_in_usd']")).
Proof.
  intros Hread Hcol. unfold train_model_py, load_dataset, Train.call.
  rewrite Hread.
  unfold drop_missing_target, Train.pure_call, Train.dropna.
  cbn [Train.try_except_file_not_found Train.bind Train.print Train.emit
       Train.ret List.app].
  change "salary_in_usd" with target. rewrite Hcol. reflexivity.
Qed.

Lemma load_dataset_ok env df :
  Train.read_csv env data_file = inr df ->
  load_dataset env = (loaded_events df, Train.Normal df).
Proof.
  intros Hread. unfold load_dataset, Train.call. rewrite Hread. reflexivity.
Qed.

Lemma drop_missing_target_ok df :
  Py.contains (Train.fr_columns df) target = true ->
  drop_missing_target df
  = (dropped_events df, Train.Normal (without_missing_target df)).
Proof.
  intros Hcol. unfold drop_missing_target, Train.pure_call, Train.dropna.
  change "salary_in_usd" with target. rewrite Hcol.
  fold (without_missing_target df).
  unfold dropped_events, dropped_rows, target.
  cbn [Train.bind].
  destruct (0 <? _)%Z; reflexivity.
Qed.

Lemma basic_checks_events df :
  basic_checks df = (checks_events df, Train.Normal tt).
Proof. reflexivity. Qed.

(** With the target among the columns the run reaches the column check
    on the table without the rows that miss the target. *)
Lemma train_loaded env df :
  Train.read_csv env data_file = inr df ->
  Py.contains (Train.fr_columns df) target = true ->
  train_model_py env
  = (let (t, o) :=
       Train.bind (check_columns (without_missing_target df))
                  (fun _ => fit_evaluate_save env (without_missing_target df))
     in ((loaded_events df ++ dropped_events df
          ++ checks_events (without_missing_target df) ++ t)%list, o)).
Proof.
  intros Hread Hcol. unfold train_model_py.
  rewrite (load_dataset_ok _ _ Hread). unfold Train.bind at 1.
  rewrite (drop_missing_target_ok _ Hcol). unfold Train.bind at 1.
  rewrite basic_checks_events. unfold Train.bind at 1.
  destruct (Train.bind (check_columns (without_missing_target df)) _)
    as [t o].
  reflexivity.
Qed.

Ltac in_cases H :=
  repeat (destruct H as [H | H]; [try discriminate H |]);
  try contradiction.

Lemma missing_cols_after_dropna df :
  missing_cols_of (without_missing_target df) = missing_cols_of df.
Proof. reflexivity. Qed.

Lemma no_missing_cols_has_target df :
  missing_cols_of df = [] -> Py.contains (Train.fr_columns df) target = true.
Proof.
  unfold missing_cols_of, features. cbn [List.app filter].
  destruct (Py.contains (Train.fr_columns df) target); [reflexivity |].
  repeat match goal with
         | |- context [Py.contains ?l ?c] => destruct (Py.contains l c)
         end; cbn [negb]; discriminate.
Qed.

Lemma target_not_reported df :
  Py.contains (Train.fr_columns df) target = true ->
  missing_cols_of df
  = filter (fun col => negb (Py.contains (Train.fr_columns df) col)) features
  /\ ~ In target (missing_cols_of df).
Proof.
  intros Hcol. split.
  - unfold missing_cols_of. rewrite filter_app. cbn [filter].
    rewrite Hcol. cbn [negb]. apply app_nil_r.
  - unfold missing_cols_of. rewrite filter_In, Hcol. intros [_ H].
    discriminate H.
Qed.

Lemma check_columns_missing df c rest :
  missing_cols_of df = c :: rest ->
  check_columns df
  = ([ Train.ev_print_with_list
         (Py.nl ++ "Error: The following required columns are missing from your dataset: ")
         (c :: rest);
       Train.ev_print "Please adjust the 'features' and 'target' lists in the script to match your dataset's column names.";
       Train.ev_exit ], Train.Exited).
Proof. intros H. unfold check_columns. rewrite H. reflexivity. Qed.

Lemma check_columns_complete df :
  missing_cols_of df = [] -> check_columns df = ([], Train.Normal tt).
Proof. intros H. unfold check_columns. rewrite H. reflexivity. Qed.

Lemma fit_calls_app t1 t2 : fit_calls (t1 ++ t2) = (fit_calls t1 ++ fit_calls t2)%list.
Proof. apply flat_map_app. Qed.

Lemma dump_calls_app t1 t2 :
  dump_calls (t1 ++ t2) = (dump_calls t1 ++ dump_calls t2)%list.
Proof. apply flat_map_app. Qed.

Lemma missing_reports_app t1 t2 :
  missing_reports (t1 ++ t2) = (missing_reports t1 ++ missing_reports t2)%list.
Proof. apply flat_map_app. Qed.

Lemma dropped_events_quiet df :
  fit_calls (dropped_events df) = []
  /\ dump_calls (dropped_events df) = []
  /\ missing_reports (dropped_events df) = [].
Proof.
  unfold dropped_events. destruct (0 <? dropped_rows df)%Z;
    repeat split; reflexivity.
Qed.

(** After [dropna] no row misses the cell it was filtered on. *)
Lemma filter_kept_rows (f : list Train.cell -> bool) rows :
  filter f (filter (fun row => negb (f row)) rows) = [].
Proof.
  induction rows as [| row rows IH]; cbn [filter]; [reflexivity |].
  destruct (f row) eqn:Hf; cbn [negb filter]; [exact IH |].
  now rewrite Hf.
Qed.

Lemma target_count_is_zero df :
  Py.contains (Train.fr_columns df) target = true ->
  In (target, 0) (Train.isnull_sum (without_missing_target df)).
Proof.
  intros Hcol. apply contains_in in Hcol.
  unfold Train.isnull_sum, without_missing_target.
  cbn [Train.fr_columns Train.fr_rows].
  apply in_map_iff. exists target. split; [| exact Hcol].
  f_equal. unfold target.
  now rewrite (filter_kept_rows
                 (fun row => Train.isna
                               (Train.cell_at (Train.fr_columns df) row
                                  "salary_in_usd"))).
Qed.

Lemma target_column_complete df :
  Forall (fun c => Train.isna c = false)
         (Train.column (without_missing_target df) target).
Proof.
  unfold Train.column, without_missing_target, target.
  cbn [Train.fr_columns Train.fr_rows].
  apply Forall_forall. intros c Hin. apply in_map_iff in Hin.
  destruct Hin as (row & <- & Hrow). apply filter_In in Hrow.
  destruct Hrow as [_ Hrow]. now apply negb_true_iff in Hrow.
Qed.

(** A model is dumped by the last stage only after it was fitted. *)
Lemma dump_follows_fit env df m f :
  In (Train.ev_dump m f) (Train.trace (fit_evaluate_save env df)) ->
  f = model_filename
  /\ exists X_train y_train,
       Train.fit env model_pipeline_steps X_train y_train = inr m.
Proof.
  unfold fit_evaluate_save, Train.call, Train.pure_call.
  destruct (Train.train_test_split env _ _)
    as [e | [[[X_train X_test] y_train] y_test]];
    [cbn; intros H; in_cases H |].
  cbn [Train.bind Train.print Train.emit List.app].
  destruct (Train.fit env _ _ _) as [e | model] eqn:Hfit;
    [cbn; intros H; in_cases H |].
  destruct (Train.fitted_predict model X_test) as [e | y_pred];
    [cbn; intros H; in_cases H |].
  destruct (Train.r2_score env y_test y_pred) as [e | r2];
    [cbn; intros H; in_cases H |].
  destruct (Train.mean_absolute_error env y_test y_pred) as [e | mae];
    [cbn; intros H; in_cases H |].
  destruct (Train.mean_squared_error env y_test y_pred) as [e | mse];
    [cbn; intros H; in_cases H |].
  destruct (Train.dump env model model_filename) as [e | []];
    cbn; intros H; in_cases H;
    injection H as <- <-; split; [reflexivity | eauto | reflexivity | eauto].
Qed.

Lemma call_is_first {A B} ev (r : Py.exn + A) (k : A -> Train.M B) :
  exists rest, Train.trace (Train.bind (Train.call ev r) k) = ev :: rest.
Proof.
  unfold Train.call, Train.bind, Train.trace.
  destruct r as [e | a]; [eexists; reflexivity |].
  destruct (k a). eexists. reflexivity.
Qed.

Lemma split_is_first env df :
  exists rest,
    Train.trace (fit_evaluate_save env df)
    = Train.ev_split (Train.select df features) (Train.column df target)
                     20 42 :: rest.
Proof. unfold fit_evaluate_save. apply call_is_first. Qed.

(** The last stage prints, splits, fits, predicts and dumps, and nothing
    else. *)
Lemma fit_stage_events env df ev :
  In ev (Train.trace (fit_evaluate_save env df)) ->
  match ev with
  | Train.ev_print _ | Train.ev_split _ _ _ _ | Train.ev_fit _ _ _
  | Train.ev_predict _ | Train.ev_dump _ _ => True
  | _ => False
  end.
Proof.
  unfold fit_evaluate_save, Train.call, Train.pure_call.
  destruct (Train.train_test_split env _ _)
    as [e | [[[X_train X_test] y_train] y_test]];
    [cbn; intros H; repeat (destruct H as [<- | H]; [exact I |]);
     contradiction |].
  cbn [Train.bind Train.print Train.emit List.app].
  destruct (Train.fit env _ _ _) as [e | model];
    [cbn; intros H; repeat (destruct H as [<- | H]; [exact I |]);
     contradiction |].
  destruct (Train.fitted_predict model X_test) as [e | y_pred];
    [cbn; intros H; repeat (destruct H as [<- | H]; [exact I |]);
     contradiction |].
  destruct (Train.r2_score env y_test y_pred) as [e | r2];
    [cbn; intros H; repeat (destruct H as [<- | H]; [exact I |]);
     contradiction |].
  destruct (Train.mean_absolute_error env y_test y_pred) as [e | mae];
    [cbn; intros H; repeat (destruct H as [<- | H]; [exact I |]);
     contradiction |].
  destruct (Train.mean_squared_error env y_test y_pred) as [e | mse];
    [cbn; intros H; repeat (destruct H as [<- | H]; [exact I |]);
     contradiction |].
  destruct (Train.dump env model model_filename) as [e | []];
    cbn; intros H; repeat (destruct H as [<- | H]; [exact I |]);
    contradiction.
Qed.

(** The events of a run, by the stage that produced them. *)
Lemma train_event_cases env ev :
  In ev (Train.trace (train_model_py env)) ->
  (exists df,
      Train.read_csv env data_file = inr df
      /\ Py.contains (Train.fr_columns df) target = true
      /\ (In ev (checks_events (without_missing_target df))
          \/ (missing_cols_of df = []
              /\ In ev (Train.trace
                          (fit_evaluate_save env (without_missing_target df))))))
  \/ match ev with
     | Train.ev_read_csv _ | Train.ev_print _ | Train.ev_print_frame _
     | Train.ev_print_with_list _ _ | Train.ev_exit => True
     | _ => False
     end.
Proof.
  destruct (Train.read_csv env data_file) as [e | df] eqn:Hread.
  - rewrite (train_not_loaded _ _ Hread). intros H. right.
    destruct e; cbn in H; repeat (destruct H as [<- | H]; [exact I |]);
      contradiction.
  - destruct (Py.contains (Train.fr_columns df) target) eqn:Hcol.
    + rewrite (train_loaded _ _ Hread Hcol).
      destruct (missing_cols_of df) as [| c rest] eqn:Hmiss.
      * rewrite check_columns_complete
          by now rewrite missing_cols_after_dropna.
        unfold Train.bind at 1.
        destruct (fit_evaluate_save env (without_missing_target df))
          as [t o] eqn:Hfit.
        cbn [Train.trace fst List.app]. intros H.
        apply in_app_or in H. destruct H as [H | H].
        { right. cbn in H. repeat (destruct H as [<- | H]; [exact I |]).
          contradiction. }
        apply in_app_or in H. destruct H as [H | H].
        { right. unfold dropped_events in H.
          destruct (0 <? dropped_rows df)%Z; cbn in H;
            repeat (destruct H as [<- | H]; [exact I |]); contradiction. }
        apply in_app_or in H. destruct H as [H | H].
        { left. exists df. split; [first [reflexivity | assumption] |].
          split; [first [reflexivity | assumption] |]. now left. }
        left. exists df. split; [first [reflexivity | assumption] |].
        split; [first [reflexivity | assumption] |].
        right. split; [first [reflexivity | exact Hmiss] |].
        rewrite Hfit. exact H.
      * rewrite (check_columns_missing _ c rest)
          by now rewrite missing_cols_after_dropna.
        unfold Train.bind at 1. cbn [Train.trace fst]. intros H.
        apply in_app_or in H. destruct H as [H | H].
        { right. cbn in H. repeat (destruct H as [<- | H]; [exact I |]).
          contradiction. }
        apply in_app_or in H. destruct H as [H | H].
        { right. unfold dropped_events in H.
          destruct (0 <? dropped_rows df)%Z; cbn in H;
            repeat (destruct H as [<- | H]; [exact I |]); contradiction. }
        apply in_app_or in H. destruct H as [H | H].
        { left. exists df. split; [first [reflexivity | assumption] |].
          split; [first [reflexivity | assumption] |]. now left. }
        right. cbn in H. repeat (destruct H as [<- | H]; [exact I |]).
        contradiction.
    + rewrite (train_no_target _ _ Hread Hcol). intros H. right.
      cbn in H. repeat (destruct H as [<- | H]; [exact I |]). contradiction.
Qed.

(** X14: when reading the data set raises, nothing is fitted or saved;
    only a missing file is reported, with a message and [exit()], and any
    other exception of the reader ends the script uncaught. *)
Theorem unreadable_data_set_ends_the_run env e :
  Train.read_csv env data_file = inl e ->
  train_model_py env
  = match e with
    | Py.FileNotFoundError _ =>
        ([ Train.ev_read_csv "ds_salaries.csv";
           Train.ev_print "Error: 'ds_salaries.csv' not found. Please make sure the CSV file is in the same directory as this script.";
           Train.ev_exit ], Train.Exited)
    | _ => ([Train.ev_read_csv "ds_salaries.csv"], Train.Raised e)
    end
  /\ fit_calls (Train.trace (train_model_py env)) = []
  /\ dump_calls (Train.trace (train_model_py env)) = [].
Proof.
  intros Hread. rewrite (train_not_loaded _ _ Hread).
  destruct e; repeat split; reflexivity.
Qed.

Lemma unreadable_data_set_witness :
  train_model_py sample_env_no_file
  = ([ Train.ev_read_csv "ds_salaries.csv";
       Train.ev_print "Error: 'ds_salaries.csv' not found. Please make sure the CSV file is in the same directory as this script.";
       Train.ev_exit ], Train.Exited)
  /\ fit_calls (Train.trace (train_model_py sample_env_no_file)) = []
  /\ dump_calls (Train.trace (train_model_py sample_env_no_file)) = [].
Proof.
  apply (unreadable_data_set_ends_the_run sample_env_no_file
           (Py.FileNotFoundError
              "[Errno 2] No such file or directory: 'ds_salaries.csv'")).
  reflexivity.
Defined.

(** X15: a data set without the column [salary_in_usd] makes [dropna]
    raise a [KeyError] before the column check is reached: the run ends
    with that exception, the message about missing columns is not
    printed, and nothing is fitted or saved. *)
Theorem missing_target_column_raises_before_the_check env df :
  Train.read_csv env data_file = inr df ->
  Py.contains (Train.fr_columns df) target = false ->
  Train.result (train_model_py env)
  = Train.Raised (Py.OtherException "['salary_in_usd']")
  /\ missing_reports (Train.trace (train_model_py env)) = []
  /\ fit_calls (Train.trace (train_model_py env)) = []
  /\ dump_calls (Train.trace (train_model_py env)) = [].
Proof.
  intros Hread Hcol. rewrite (train_no_target _ _ Hread Hcol).
  repeat split; reflexivity.
Qed.

Lemma missing_target_column_witness :
  Train.result (train_model_py (sample_env sample_frame_no_target))
  = Train.Raised (Py.OtherException "['salary_in_usd']")
  /\ missing_reports
       (Train.trace (train_model_py (sample_env sample_frame_no_target))) = []
  /\ fit_calls
       (Train.trace (train_model_py (sample_env sample_frame_no_target))) = []
  /\ dump_calls
       (Train.trace (train_model_py (sample_env sample_frame_no_target))) = [].
Proof.
  apply (missing_target_column_raises_before_the_check
           (sample_env sample_frame_no_target) sample_frame_no_target);
    reflexivity.
Defined.

(** X16: when the data set has the target but lacks some feature column,
    the script prints the absent feature columns, in the order of
    [features], and exits; nothing is fitted or saved. *)
Theorem missing_feature_columns_are_reported env df :
  Train.read_csv env data_file = inr df ->
  Py.contains (Train.fr_columns df) target = true ->
  missing_cols_of df <> [] ->
  Train.result (train_model_py env) = Train.Exited
  /\ missing_reports (Train.trace (train_model_py env))
     = [ filter (fun col => negb (Py.contains (Train.fr_columns df) col))
                features ]
  /\ fit_calls (Train.trace (train_model_py env)) = []
  /\ dump_calls (Train.trace (train_model_py env)) = [].
Proof.
  intros Hread Hcol Hmiss.
  destruct (target_not_reported _ Hcol) as [Hfeat _].
  rewrite (train_loaded _ _ Hread Hcol).
  destruct (missing_cols_of df) as [| c rest] eqn:Hcols; [congruence |].
  rewrite (check_columns_missing _ c rest)
    by now rewrite missing_cols_after_dropna.
  unfold Train.bind. cbn [Train.trace Train.result fst snd].
  destruct (dropped_events_quiet df) as (Hf & Hd & Hm).
  rewrite !missing_reports_app, !fit_calls_app, !dump_calls_app, Hf, Hd, Hm.
  rewrite <- Hfeat. repeat split; reflexivity.
Qed.

Lemma missing_feature_columns_witness :
  Train.result (train_model_py (sample_env sample_frame_no_job_title))
  = Train.Exited
  /\ missing_reports
       (Train.trace (train_model_py (sample_env sample_frame_no_job_title)))
     = [ filter (fun col =>
                   negb (Py.contains
                           (Train.fr_columns sample_frame_no_job_title) col))
                features ]
  /\ fit_calls
       (Train.trace (train_model_py (sample_env sample_frame_no_job_title)))
     = []
  /\ dump_calls
       (Train.trace (train_model_py (sample_env sample_frame_no_job_title)))
     = [].
Proof.
  apply (missing_feature_columns_are_reported
           (sample_env sample_frame_no_job_title) sample_frame_no_job_title).
  - reflexivity.
  - reflexivity.
  - vm_compute. discriminate.
Defined.

(** X17: in every run a model is written only by a dump of a pipeline
    that [fit] returned, and only under the file name that [app.py]
    loads. *)
Theorem model_is_saved_only_when_fitted env model filename :
  In (Train.ev_dump model filename) (Train.trace (train_model_py env)) ->
  filename = model_file
  /\ exists X_train y_train,
       Train.fit env model_pipeline_steps X_train y_train = inr model.
Proof.
  intros H. apply train_event_cases in H.
  destruct H as [(df & _ & _ & [H | [_ H]]) | []].
  - cbn in H. in_cases H.
  - apply dump_follows_fit in H. exact H.
Qed.

Lemma model_is_saved_witness :
  "salary_prediction_model.pkl" = model_file
  /\ exists X_train y_train,
       Train.fit (sample_env sample_frame) model_pipeline_steps X_train
                 y_train = inr sample_fitted.
Proof.
  apply (model_is_saved_only_when_fitted (sample_env sample_frame)
           sample_fitted "salary_prediction_model.pkl").
  cbn. repeat (first [left; reflexivity | right]).
Defined.

(** X18: when the data set has all required columns, the table handed to
    the split has the feature columns in the order in which [app.py]
    builds its feature row, one row for each target value, and no target
    value is missing. *)
Theorem training_data_has_app_columns_and_targets env df :
  Train.read_csv env data_file = inr df ->
  missing_cols_of df = [] ->
  exists X y,
    In (Train.ev_split X y 20 42) (Train.trace (train_model_py env))
    /\ X = Train.select (without_missing_target df) features
    /\ y = Train.column (without_missing_target df) target
    /\ Train.fr_columns X = feature_columns
    /\ Forall (fun row => List.length row = 5) (Train.fr_rows X)
    /\ List.length (Train.fr_rows X) = List.length y
    /\ Forall (fun c => Train.isna c = false) y.
Proof.
  intros Hread Hmiss.
  pose proof (no_missing_cols_has_target _ Hmiss) as Hcol.
  exists (Train.select (without_missing_target df) features).
  exists (Train.column (without_missing_target df) target).
  split; [| split; [reflexivity | split; [reflexivity | split; [reflexivity |]]]].
  - rewrite (train_loaded _ _ Hread Hcol).
    rewrite check_columns_complete
      by now rewrite missing_cols_after_dropna.
    unfold Train.bind at 1.
    destruct (split_is_first env (without_missing_target df)) as [rest Hrest].
    destruct (fit_evaluate_save env (without_missing_target df)) as [t o].
    cbn [Train.trace fst] in *. subst t.
    apply in_or_app. right. apply in_or_app. right.
    apply in_or_app. right. now left.
  - split; [| split].
    + unfold Train.select. cbn [Train.fr_rows].
      apply Forall_forall. intros row Hin. apply in_map_iff in Hin.
      destruct Hin as (r & <- & _). reflexivity.
    + unfold Train.select, Train.column. cbn [Train.fr_rows].
      now rewrite !length_map.
    + apply target_column_complete.
Qed.

Lemma training_data_witness :
  exists X y,
    In (Train.ev_split X y 20 42)
       (Train.trace (train_model_py (sample_env sample_frame)))
    /\ X = Train.select (without_missing_target sample_frame) features
    /\ y = Train.column (without_missing_target sample_frame) target
    /\ Train.fr_columns X = feature_columns
    /\ Forall (fun row => List.length row = 5) (Train.fr_rows X)
    /\ List.length (Train.fr_rows X) = List.length y
    /\ Forall (fun c => Train.isna c = false) y.
Proof.
  apply (training_data_has_app_columns_and_targets
           (sample_env sample_frame) sample_frame); reflexivity.
Defined.

(** X19: whenever a run prints the counts of missing values, the count
    for [salary_in_usd] is 0: the counts are taken after the rows without
    a target were dropped. *)
Theorem printed_counts_have_no_missing_target env counts :
  In (Train.ev_print_counts counts) (Train.trace (train_model_py env)) ->
  In (target, 0) counts.
Proof.
  intros H. apply train_event_cases in H.
  destruct H as [(df & _ & Hcol & [H | [_ H]]) | []].
  - cbn in H. in_cases H. injection H as <-.
    now apply target_count_is_zero.
  - apply fit_stage_events in H. contradiction.
Qed.

Lemma printed_counts_witness :
  In (target, 0)
     [ ("work_year", 0); ("experience_level", 0); ("job_title", 0);
       ("salary_in_usd", 0); ("company_location", 0); ("remote_ratio", 0) ].
Proof.
  apply (printed_counts_have_no_missing_target (sample_env sample_frame)).
  cbn. repeat (first [left; reflexivity | right]).
Defined.


